(** * QuickNote_BE: the media-to-summary pipeline orchestrator

    A shallow embedding of [app/services/summarize.py] ([run_pipeline])
    and of the [Transcriber] class of [app/pipelines/summarizer.py].

    Conventions of the embedding.
    - A run is a computation in the monad [M]: it emits a trace of
      [Action]s (audit events, collaborator calls, filesystem effects)
      and ends by continuing, by a Python [return] or by a raised
      exception.
    - The external collaborators (converter, enhancer, speech model,
      language model, chunker, filesystem) are the fields of a [World];
      theorems quantify over every world.
    - Python [str] is [string], one character per code point below 256.
    - Console output ([print]) is not part of the model. *)

From Stdlib Require Import ZArith Ascii String List Bool Lia.
From stdpp Require Import base option list strings gmap.

Local Open Scope string_scope.
Local Open Scope list_scope.

(** ** Python text *)

Module Py.

(** [str.lower] on code points below 256: A-Z and the accented capitals
    0xC0-0xDE (0xD7, the multiplication sign, apart) move up by 32. *)
Definition lower_char (c : ascii) : ascii :=
  let n := nat_of_ascii c in
  if ((65 <=? n)%nat && (n <=? 90)%nat)
     || ((192 <=? n)%nat && (n <=? 222)%nat && negb (n =? 215)%nat)
  then ascii_of_nat (n + 32) else c.

Fixpoint lower (s : string) : string :=
  match s with
  | EmptyString => EmptyString
  | String c s' => String (lower_char c) (lower s')
  end.

(** [str.isspace] for one character below 256. *)
Definition isspace (c : ascii) : bool :=
  let n := nat_of_ascii c in
  ((9 <=? n)%nat && (n <=? 13)%nat) || ((28 <=? n)%nat && (n <=? 32)%nat)
  || (n =? 133)%nat || (n =? 160)%nat.

Fixpoint lstrip (s : string) : string :=
  match s with
  | EmptyString => EmptyString
  | String c s' => if isspace c then lstrip s' else s
  end.

Fixpoint rstrip (s : string) : string :=
  match s with
  | EmptyString => EmptyString
  | String c s' =>
      match rstrip s' with
      | EmptyString => if isspace c then EmptyString else String c EmptyString
      | r => String c r
      end
  end.

(** [str.strip()] without argument. *)
Definition strip (s : string) : string := rstrip (lstrip s).

(** Truth value of a [str]: the empty string is false. *)
Definition truthy (s : string) : bool :=
  match s with EmptyString => false | _ => true end.

(** [len(s)] *)
Definition len (s : string) : Z := Z.of_nat (String.length s).

(** [x in xs] for a list of strings. *)
Definition str_in (x : string) (xs : list string) : bool :=
  existsb (String.eqb x) xs.

(** Split at the last occurrence of [c] (the text before it, the text
    after it); [None] when [c] does not occur: [str.rfind] with slicing. *)
Fixpoint rsplit (c : ascii) (s : string) : option (string * string) :=
  match s with
  | EmptyString => None
  | String a s' =>
      match rsplit c s' with
      | Some (b, t) => Some (String a b, t)
      | None => if Ascii.eqb a c then Some (EmptyString, s') else None
      end
  end.

(** A Python exception object: its class and its [str(e)]. *)
Record Exn := mkExn { exn_class : string; exn_msg : string }.

(** The result of a call that may raise. *)
Inductive Result (A : Type) : Type :=
| Ok (a : A)
| Raises (e : Exn).
Arguments Ok {A} a.
Arguments Raises {A} e.

(** The values that travel in audit-event fields and in the returned dict. *)
#[local] Set Warnings "-register-all".
Inductive Val : Type :=
| VNone
| VBool (b : bool)
| VInt (z : Z)
| VStr (s : string)
| VList (l : list Val)
| VDict (kvs : list (Val * Val)).

End Py.

(** ** Paths ([pathlib.Path]) *)

Module Path.

(** A path is its normalised text ([str(p)]). *)
Definition t := string.

(** [p.name]: the final component. *)
Definition name (p : t) : string :=
  match Py.rsplit "/" p with
  | Some (_, n) => n
  | None => p
  end.

(** [p.suffix]: from the last dot of the name, when that dot is neither
    the first nor the last character of the name. *)
Definition suffix (p : t) : string :=
  match Py.rsplit "." (name p) with
  | Some (b, e) =>
      if Py.truthy b && Py.truthy e then String "." e else EmptyString
  | None => EmptyString
  end.

(** [p.stem]: the name without its suffix. *)
Definition stem (p : t) : string :=
  match Py.rsplit "." (name p) with
  | Some (b, e) => if Py.truthy b && Py.truthy e then b else name p
  | None => name p
  end.

(** [dir / child] *)
Definition join (dir : t) (child : string) : t := dir +:+ "/" +:+ child.

End Path.

(** ** Audit events and the trace of a run *)

(** One audit record, as passed to [logger.log(stage, severity, message,
    **fields)]. *)
Record StageEvent := mkEvent {
  stage : string;
  severity : string;
  message : string;
  fields : list (string * Py.Val)
}.

(** What the language model answers: its [.text] may itself raise. *)
Record Response := mkResponse { resp_text : Py.Result string }.

(** The dict a successful [whisper] transcription returns. *)
Record WhisperResult := mkWhisperResult {
  wr_text : string;
  wr_language : string
}.

(** The cluster map: cluster id to the chunks of the cluster. *)
Abbreviation Clusters := (gmap Z (list string)).

(** The returned value of [run_pipeline]: a Python dict with string keys. *)
Abbreviation Dict := (gmap string Py.Val).

(** Every observable effect of a run, in the order it happens. *)
Inductive Action : Type :=
| Log (e : StageEvent)
| Save
| Mkdir (dir : Path.t)
| ConvertVideo (src dst : Path.t)
| ConvertAudio (src dst : Path.t)
| Enhance (audio : option Path.t) (aggressive : bool)
| NewTranscriber (model_name : string)
| NewSummarizer
| WhisperTranscribe (file : string) (language : option string)
| GenerateContent (prompt : string)
| ChunkText (text : string) (chunk_size : Z)
| ClusterChunks (chunks : list string)
| GetFinalSummary (clusters : Clusters) (language : string)
| Unlink (file : Path.t).

(** ** The monad of runs: a trace, and how control leaves *)

Inductive Outcome (A : Type) : Type :=
| Continue (a : A)
| Return (d : Dict)
| Raise (e : Py.Exn).
Arguments Continue {A} a.
Arguments Return {A} d.
Arguments Raise {A} e.

Definition M (A : Type) : Type := (list Action * Outcome A)%type.

#[global] Instance M_ret : MRet M := λ A a, ([], Continue a).

(** Sequencing: the continuation runs only after [Continue]; its trace
    follows the trace so far. *)
#[global] Instance M_bind : MBind M := λ A B f m,
  (m.1 ++ match m.2 with Continue a => (f a).1 | _ => [] end,
   match m.2 with
   | Continue a => (f a).2
   | Return d => Return d
   | Raise e => Raise e
   end).

(** One effect without a result. *)
Definition emit (a : Action) : M unit := ([a], Continue tt).

(** A collaborator call that may raise. *)
Definition call {A} (a : Action) (r : Py.Result A) : M A :=
  ([a], match r with Py.Ok x => Continue x | Py.Raises e => Raise e end).

(** [return d] *)
Definition return_ {A} (d : Dict) : M A := ([], Return d).

(** [raise e] *)
Definition raise {A} (e : Py.Exn) : M A := ([], Raise e).

(** [try: m  except Exception as e: h e] *)
Definition try_except {A} (m : M A) (h : Py.Exn → M A) : M A :=
  (m.1 ++ match m.2 with Raise e => (h e).1 | _ => [] end,
   match m.2 with
   | Raise e => (h e).2
   | other => other
   end).

(** [logger.log(stage, severity, message, **fields)] *)
Definition log (st sev msg : string) (fs : list (string * Py.Val)) : M unit :=
  emit (Log (mkEvent st sev msg fs)).

Definition trace {A} (m : M A) : list Action := m.1.
Definition outcome {A} (m : M A) : Outcome A := m.2.

(** ** The audit logger *)

(** Modelled from the spec: [app.helper.JSONLogger] is not among the
    sources. [log] appends one event; [save] persists the ordered event
    sequence as one log. *)
Record JSONLogger := mkLogger {
  events : list StageEvent;
  persisted : list (list StageEvent)
}.

Definition logger_new : JSONLogger := mkLogger [] [].

Definition logger_step (l : JSONLogger) (a : Action) : JSONLogger :=
  match a with
  | Log e => mkLogger (events l ++ [e]) (persisted l)
  | Save => mkLogger (events l) (persisted l ++ [events l])
  | _ => l
  end.

(** The logger of a run after the run's trace. *)
Definition logger_after (t : list Action) : JSONLogger :=
  fold_left logger_step t logger_new.

(** ** The collaborators *)

(** [class Transcriber]: the loaded speech model ([self.model.transcribe],
    called with the path text and the optional [language] keyword) and the
    language model ([self.gemini_model], [None] by default). *)
Record Transcriber := mkTranscriber {
  model : string → option string → Py.Result WhisperResult;
  gemini_model : option (string → Py.Result Response)
}.

(** The summarizer's three operations, as [run_pipeline] calls them. *)
Record Summarizer := mkSummarizer {
  chunk_text : string → Z → list string;
  cluster_chunks : list string → Clusters;
  get_final_summary : Clusters → string → Py.Val * string
}.

(** Everything outside the orchestrator. The two constructors may raise;
    the converters and the enhancer answer a path or [None]. [path_exists]
    is [Path.exists] when the run starts; [folder_exists], [rglob],
    [is_file] and [unlink] are the filesystem when cleanup runs. [rglob]
    is a generator: the entries it yields and, possibly, the exception
    that ends the iteration. *)
Record World := mkWorld {
  path_exists : Path.t → bool;
  convert_video_to_audio : Path.t → Path.t → option Path.t;
  convert_audio_format : Path.t → Path.t → option Path.t;
  enhance_audio : option Path.t → bool → option Path.t;
  new_Transcriber : string → Py.Result Transcriber;
  new_Summarizer : Py.Result Summarizer;
  folder_exists : Path.t → bool;
  rglob : Path.t → list Path.t * option Py.Exn;
  is_file : Path.t → bool;
  unlink : Path.t → Py.Result unit
}.

(** The keyword arguments of [run_pipeline]. *)
Record Options := mkOptions {
  denoise : bool;
  aggressive_denoise : bool;
  force_wav : bool;
  transcriber_model : string;
  chunk_size : Z;
  language : option string
}.

Definition default_options : Options :=
  mkOptions false false false "small" 2000 None.

Definition newline : string := String (ascii_of_nat 10) EmptyString.

(** ** [Transcriber.transcribe] and [Transcriber.language_rules] *)

(** [if language:] on an optional string. *)
Definition language_given (language : option string) : option string :=
  match language with
  | Some l => if Py.truthy l then Some l else None
  | None => None
  end.

(** Lines 15-35: the pair (text, language), or [None] after any
    exception of the speech model. *)
Definition transcribe (self : Transcriber) (file_path : Path.t)
    (language : option string) : M (option (string * string)) :=
  try_except
    (let options := language_given language in
     result ← call (WhisperTranscribe file_path options)
                   (model self file_path options);
     mret (Some (wr_text result, wr_language result)))
    (λ _, mret None).

(** The prompt of lines 41-45. *)
Definition correction_prompt (transcript language : string) : string :=
  "You are a language expert. Please correct the following transcript "
  +:+ "without changing the original meaning, just adjusting the language rules."
  +:+ "according to the rules of the " +:+ language
  +:+ " transcription:" +:+ newline +:+ newline +:+ transcript.

(** Lines 37-52. With [gemini_model] left at [None] the attribute access
    raises inside the [try] and the transcript comes back as it is. *)
Definition language_rules (self : Transcriber) (transcript language : string)
    : M string :=
  let prompt := correction_prompt transcript language in
  try_except
    (match gemini_model self with
     | None => raise (Py.mkExn "AttributeError"
                 "'NoneType' object has no attribute 'generate_content'")
     | Some generate_content =>
         response ← call (GenerateContent prompt) (generate_content prompt);
         match resp_text response with
         | Py.Ok text => mret (Py.strip text)
         | Py.Raises e => raise e
         end
     end)
    (λ _, mret transcript).

(** ** [run_pipeline], stage by stage *)

Definition type_supported : list string :=
  [".mp4"; ".mkv"; ".mov"; ".mp3"; ".wav"; ".m4a"; ".flac"; ".ogg"].

Definition video_types : list string := [".mp4"; ".mkv"; ".mov"].

Definition audio_types : list string :=
  [".mp3"; ".wav"; ".m4a"; ".flac"; ".ogg"].

Definition error_dict (msg : string) : Dict := {[ "error" := Py.VStr msg ]}.

(** Lines 36-51: the opening event and input validation; the lowercased
    suffix is the result. *)
Definition validate (w : World) (input_file : Path.t) (o : Options)
    : M string :=
  log "INITIALIZATION" "INFO" "Starting audio/video processing pipeline"
      [("input_file", Py.VStr input_file);
       ("transcriber_model", Py.VStr (transcriber_model o));
       ("denoise_enabled", Py.VBool (denoise o));
       ("aggressive_denoise", Py.VBool (aggressive_denoise o))];;
  if negb (path_exists w input_file) then
    log "FILE_VALIDATION" "ERROR" ("Input file not found: " +:+ input_file) [];;
    return_ (error_dict ("File not found: " +:+ input_file))
  else
    let input_type := Py.lower (Path.suffix input_file) in
    if negb (Py.str_in input_type type_supported) then
      log "FILE_VALIDATION" "ERROR" ("Unsupported file type: " +:+ input_type) [];;
      return_ (error_dict ("Unsupported file type: " +:+ input_type))
    else
      log "FILE_VALIDATION" "SUCCESS" "Input file validated"
          [("file_type", Py.VStr input_type)];;
      mret input_type.

(** Lines 52-80: normalisation to the canonical audio encoding. The result
    is [audio_path], which line 33 starts at [None]. *)
Definition normalize (w : World) (input_file : Path.t) (o : Options)
    (input_type : string) : M (option Path.t) :=
  log "AUDIO_CONVERSION" "INFO" "Starting audio format standardization" [];;
  if Py.str_in input_type video_types then
    log "VIDEO_PROCESSING" "INFO"
        ("Processing video file: '" +:+ Path.name input_file +:+ "'") [];;
    let output_dir := "data/audio" in
    emit (Mkdir output_dir);;
    let audio_path := Path.join output_dir (Path.stem input_file +:+ ".wav") in
    emit (ConvertVideo input_file audio_path);;
    match convert_video_to_audio w input_file audio_path with
    | None =>
        log "VIDEO_PROCESSING" "ERROR" "Video conversion failed" [];;
        return_ (error_dict "Video conversion failed")
    | Some _ =>
        log "VIDEO_PROCESSING" "SUCCESS" "Video converted to audio"
            [("output_file", Py.VStr audio_path)];;
        mret (Some audio_path)
    end
  else if Py.str_in input_type audio_types then
    log "AUDIO_PROCESSING" "INFO"
        ("Processing audio file: '" +:+ Path.name input_file +:+ "'") [];;
    if negb (String.eqb input_type ".wav") || force_wav o then
      let output_dir := "data/audio" in
      emit (Mkdir output_dir);;
      let audio_path :=
        Path.join output_dir (Path.stem input_file +:+ "_standardized.wav") in
      emit (ConvertAudio input_file audio_path);;
      match convert_audio_format w input_file audio_path with
      | None =>
          log "AUDIO_PROCESSING" "WARNING"
              "Audio format conversion failed. Using original file." [];;
          mret (Some input_file)
      | Some _ =>
          log "AUDIO_PROCESSING" "SUCCESS" "Audio format standardized"
              [("output_file", Py.VStr audio_path)];;
          mret (Some audio_path)
      end
    else
      log "AUDIO_PROCESSING" "INFO"
          ("Using WAV file directly: " +:+ Path.name input_file) [];;
      mret (Some input_file)
  else mret None.

(** Lines 82-91: the enhancement gate. *)
Definition enhance (w : World) (o : Options) (audio_path : option Path.t)
    : M (option Path.t) :=
  if denoise o || aggressive_denoise o then
    log "AUDIO_ENHANCEMENT" "INFO" "Starting audio enhancement"
        [("aggressive_mode", Py.VBool (aggressive_denoise o))];;
    emit (Enhance audio_path (aggressive_denoise o));;
    match enhance_audio w audio_path (aggressive_denoise o) with
    | Some enhanced_audio_path =>
        log "AUDIO_ENHANCEMENT" "SUCCESS" "Audio enhancement completed" [];;
        mret (Some enhanced_audio_path)
    | None =>
        log "AUDIO_ENHANCEMENT" "ERROR"
            "Audio enhancement failed. Proceeding with original audio." [];;
        mret audio_path
    end
  else
    log "AUDIO_ENHANCEMENT" "INFO" "Audio enhancement skipped by user choice" [];;
    mret audio_path.

(** Lines 93-100: both collaborators are built inside one [try]. *)
Definition init_models (w : World) (o : Options)
    : M (Transcriber * Summarizer) :=
  log "MODEL_INIT" "INFO" "Initializing AI models" [];;
  try_except
    (transcriber ← call (NewTranscriber (transcriber_model o))
                        (new_Transcriber w (transcriber_model o));
     summarizer ← call NewSummarizer (new_Summarizer w);
     log "MODEL_INIT" "SUCCESS" "AI models initialized successfully" [];;
     mret (transcriber, summarizer))
    (λ e,
     log "MODEL_INIT" "ERROR" ("Initialization error: " +:+ Py.exn_msg e) [];;
     return_ (error_dict ("Model initialization failed: " +:+ Py.exn_msg e))).

(** Lines 102-114: transcription and, after a non-empty text, language
    correction. [audio_path.name] needs a path; the tuple assignment of
    line 104 needs a pair. *)
Definition transcribe_stage (o : Options) (transcriber : Transcriber)
    (audio_path : option Path.t) : M (string * string) :=
  match audio_path with
  | None => raise (Py.mkExn "AttributeError"
              "'NoneType' object has no attribute 'name'")
  | Some audio =>
      log "TRANSCRIPTION" "INFO"
          ("Starting transcription of: " +:+ Path.name audio) [];;
      answer ← transcribe transcriber audio (language o);
      match answer with
      | None => raise (Py.mkExn "TypeError"
                  "cannot unpack non-iterable NoneType object")
      | Some (result, detected_language) =>
          if Py.truthy result then
            log "TRANSCRIPTION" "SUCCESS" "Transcription completed"
                [("detected_language", Py.VStr detected_language);
                 ("transcript_length_chars", Py.VInt (Py.len result))];;
            log "CORRECTION" "INFO" "Applying language rule correction" [];;
            transcript ← language_rules transcriber result detected_language;
            log "CORRECTION" "SUCCESS" "Language correction applied" [];;
            mret (transcript, detected_language)
          else
            log "TRANSCRIPTION" "ERROR" "Transcription failed" [];;
            return_ (error_dict "Transcription failed")
      end
  end.

(** Lines 116-121. *)
Definition chunk_stage (o : Options) (summarizer : Summarizer)
    (transcript : string) : M (list string) :=
  log "TEXT_PROCESSING" "INFO" "Starting text processing and summarization" [];;
  emit (ChunkText transcript (chunk_size o));;
  let chunks := chunk_text summarizer transcript (chunk_size o) in
  log "TEXT_CHUNKING" "SUCCESS" "Text split into chunks"
      [("num_chunks", Py.VInt (Z.of_nat (length chunks)));
       ("chunk_size", Py.VInt (chunk_size o))];;
  mret chunks.

(** Lines 123-131: cluster when there are more than 7 chunks. *)
Definition cluster_stage (summarizer : Summarizer) (chunks : list string)
    : M Clusters :=
  if (7 <? Z.of_nat (length chunks))%Z then
    log "CLUSTERING" "INFO" "Clustering chunks by topic" [];;
    emit (ClusterChunks chunks);;
    let clusters := cluster_chunks summarizer chunks in
    log "CLUSTERING" "SUCCESS" "Topic clustering completed"
        [("num_clusters", Py.VInt (Z.of_nat (size clusters)))];;
    mret clusters
  else
    let clusters : Clusters := {[ 0%Z := chunks ]} in
    log "CLUSTERING" "INFO" "Few Chunks - no clustering needed" [];;
    mret clusters.

(** Lines 133-137. *)
Definition summarize_stage (summarizer : Summarizer) (clusters : Clusters)
    (detected_language : string) : M (Py.Val * string) :=
  log "SUMMARIZATION" "INFO" "Generating comprehensive summary" [];;
  emit (GetFinalSummary clusters detected_language);;
  let '(cluster_summaries, final_summary) :=
    get_final_summary summarizer clusters detected_language in
  log "SUMMARIZATION" "SUCCESS" "Final summary generated"
      [("summary_length_chars", Py.VInt (Py.len final_summary))];;
  mret (cluster_summaries, final_summary).

(** Lines 139-140. *)
Definition complete_stage : M unit :=
  log "PIPELINE_COMPLETE" "SUCCESS" "Pipeline completed successfully" [];;
  emit Save.

(** [for x in xs: body x] *)
Fixpoint for_each {A} (xs : list A) (body : A → M unit) : M unit :=
  match xs with
  | [] => mret tt
  | x :: rest => body x;; for_each rest body
  end.

Definition temp_folders : list Path.t :=
  ["data/audio/enhanced"; "data/temp"; "data/audio"].

(** Lines 148-149. *)
Definition unlink_if_file (w : World) (file : Path.t) : M unit :=
  if is_file w file then call (Unlink file) (unlink w file) else mret tt.

(** Lines 146-149: delete every regular file below one folder. *)
Definition walk_folder (w : World) (folder : Path.t) : M unit :=
  if folder_exists w folder then
    let '(files, stop) := rglob w folder in
    for_each files (unlink_if_file w);;
    match stop with
    | Some e => raise e
    | None => mret tt
    end
  else mret tt.

(** Lines 145-151, for one folder: the [try] spans the whole walk, so the
    first exception leaves the remaining files of the folder in place. *)
Definition clean_folder (w : World) (folder : Path.t) : M unit :=
  try_except (walk_folder w folder)
    (λ e,
     log "CLEANUP" "WARNING"
         ("Failed to clean up " +:+ folder +:+ ": " +:+ Py.exn_msg e) []).

(** Lines 142-151. *)
Definition cleanup (w : World) : M unit :=
  for_each temp_folders (clean_folder w).

(** Lines 153-159. *)
Definition success_dict (final_summary transcript detected_language : string)
    (chunks : list string) (cluster_summaries : Py.Val) : Dict :=
  {[ "summary" := Py.VStr final_summary;
     "transcript" := Py.VStr transcript;
     "detected_language" := Py.VStr detected_language;
     "chunks" := Py.VList (Py.VStr <$> chunks);
     "cluster_summaries" := cluster_summaries ]}.

(** Lines 93-159: what the run does with the audio artifact it ends up
    with. *)
Definition after_enhancement (w : World) (o : Options)
    (audio_path : option Path.t) : M Empty_set :=
  '(transcriber, summarizer) ← init_models w o;
  '(transcript, detected_language) ← transcribe_stage o transcriber audio_path;
  chunks ← chunk_stage o summarizer transcript;
  clusters ← cluster_stage summarizer chunks;
  '(cluster_summaries, final_summary) ←
    summarize_stage summarizer clusters detected_language;
  complete_stage;;
  cleanup w;;
  return_ (success_dict final_summary transcript detected_language
                        chunks cluster_summaries).

(** Lines 52-159, once [input_type] is known. *)
Definition after_validation (w : World) (input_file : Path.t) (o : Options)
    (input_type : string) : M Empty_set :=
  audio_path ← normalize w input_file o input_type;
  audio_path ← enhance w o audio_path;
  after_enhancement w o audio_path.

(** [run_pipeline(input_file, denoise, aggressive_denoise, force_wav,
    transcriber_model, chunk_size, language)]: every path through it ends
    in [Return] or [Raise], so its result type is empty. *)
Definition run_pipeline (w : World) (input_file : Path.t) (o : Options)
    : M Empty_set :=
  input_type ← validate w input_file o;
  after_validation w input_file o input_type.

(** ** Sample collaborators, for the examples *)

Module Sample.

Definition whisper_ok : string → option string → Py.Result WhisperResult :=
  λ _ _, Py.Ok (mkWhisperResult "hello wrld" "en").

Definition whisper_silent : string → option string → Py.Result WhisperResult :=
  λ _ _, Py.Ok (mkWhisperResult "" "en").

Definition whisper_broken : string → option string → Py.Result WhisperResult :=
  λ _ _, Py.Raises (Py.mkExn "RuntimeError" "decoder failed").

Definition gemini_ok : string → Py.Result Response :=
  λ _, Py.Ok (mkResponse (Py.Ok " hello world ")).

Definition gemini_down : string → Py.Result Response :=
  λ _, Py.Raises (Py.mkExn "ConnectionError" "model unreachable").

(** A summarizer whose chunker answers [n] copies of the text. *)
Definition summarizer_of (n : nat) : Summarizer :=
  mkSummarizer
    (λ text _, repeat text n)
    (λ chunks, {[ 1%Z := take 4 chunks; 2%Z := drop 4 chunks ]})
    (λ clusters _, (Py.VList [], "short summary")).

(** Every collaborator works; [files] is what cleanup finds under
    [data/audio]. *)
Definition world (present : Path.t → bool) (tr : Py.Result Transcriber)
    (n : nat) (files : list Path.t) : World :=
  mkWorld present
    (λ _ dst, Some dst) (λ _ dst, Some dst)
    (λ _ _, Some "data/audio/enhanced/out.wav")
    (λ _, tr) (Py.Ok (summarizer_of n))
    (String.eqb "data/audio") (λ _, (files, None)) (λ _, true)
    (λ _, Py.Ok tt).

Definition all_present : Path.t → bool := λ _, true.
Definition none_present : Path.t → bool := λ _, false.

Definition good : World :=
  world all_present (Py.Ok (mkTranscriber whisper_ok (Some gemini_ok))) 3
        ["data/audio/talk.wav"].

(** The speech model raises on every file. *)
Definition deaf : World :=
  world all_present (Py.Ok (mkTranscriber whisper_broken (Some gemini_ok))) 3 [].

(** The speech model hears nothing. *)
Definition silent : World :=
  world all_present (Py.Ok (mkTranscriber whisper_silent (Some gemini_ok))) 3 [].

(** No file is where the caller says. *)
Definition empty_disk : World :=
  world none_present (Py.Ok (mkTranscriber whisper_ok (Some gemini_ok))) 3 [].

(** The converters and the enhancer fail; the rest works. *)
Definition no_codec : World :=
  mkWorld all_present (λ _ _, None) (λ _ _, None) (λ _ _, None)
    (λ _, Py.Ok (mkTranscriber whisper_ok (Some gemini_down)))
    (Py.Ok (summarizer_of 9))
    (λ _, false) (λ _, ([], None)) (λ _, true) (λ _, Py.Ok tt).

(** As [no_codec], and the speech model cannot be loaded. *)
Definition no_codec_no_model : World :=
  mkWorld all_present (λ _ _, None) (λ _ _, None) (λ _ _, None)
    (λ _, Py.Raises (Py.mkExn "RuntimeError" "out of memory"))
    (Py.Ok (summarizer_of 9))
    (λ _, false) (λ _, ([], None)) (λ _, true) (λ _, Py.Ok tt).

End Sample.

(** ** Which stage a piece of work belongs to *)

(** The stage whose events the source logs around each collaborator call.
    Audit events, directory creation and the saving of the log are not
    stage work. *)
Definition stage_of (a : Action) : option string :=
  match a with
  | ConvertVideo _ _ => Some "VIDEO_PROCESSING"
  | ConvertAudio _ _ => Some "AUDIO_PROCESSING"
  | Enhance _ _ => Some "AUDIO_ENHANCEMENT"
  | NewTranscriber _ | NewSummarizer => Some "MODEL_INIT"
  | WhisperTranscribe _ _ => Some "TRANSCRIPTION"
  | GenerateContent _ => Some "CORRECTION"
  | ChunkText _ _ => Some "TEXT_CHUNKING"
  | ClusterChunks _ => Some "CLUSTERING"
  | GetFinalSummary _ _ => Some "SUMMARIZATION"
  | Unlink _ => Some "CLEANUP"
  | Log _ | Save | Mkdir _ => None
  end.

(** The audit event [a], when it is one of stage [s]. *)
Definition is_event_of (s : string) (a : Action) : bool :=
  match a with
  | Log e => String.eqb (stage e) s
  | _ => false
  end.

(** An outcome event: one of stage [s] that is not a mere [INFO]. *)
Definition is_outcome_of (s : string) (a : Action) : bool :=
  match a with
  | Log e => String.eqb (stage e) s && negb (String.eqb (severity e) "INFO")
  | _ => false
  end.

(** Walking on from a piece of work of stage [s]: its outcome event comes
    before any work of another stage (or the run ends first). *)
Fixpoint outcome_logged (s : string) (rest : list Action) : bool :=
  match rest with
  | [] => true
  | b :: rest' =>
      if is_outcome_of s b then true
      else match stage_of b with
           | Some s' => String.eqb s' s && outcome_logged s rest'
           | None => outcome_logged s rest'
           end
  end.

(** Every piece of stage work in the trace has its outcome recorded before
    the next stage is attempted. *)
Fixpoint stages_recorded (t : list Action) : bool :=
  match t with
  | [] => true
  | a :: rest =>
      match stage_of a with
      | Some s => outcome_logged s rest
      | None => true
      end && stages_recorded rest
  end.

(** The number of [logger.save()] calls in a trace. *)
Definition saves (t : list Action) : nat :=
  length (List.filter (λ a, match a with Save => true | _ => false end) t).

(** As [outcome_logged], but the outcome event must be there: the end of
    the trace does not excuse it. *)
Fixpoint outcome_settled (s : string) (rest : list Action) : bool :=
  match rest with
  | [] => false
  | b :: rest' =>
      if is_outcome_of s b then true
      else match stage_of b with
           | Some s' => String.eqb s' s && outcome_settled s rest'
           | None => outcome_settled s rest'
           end
  end.

(** Every piece of stage work in the trace has its outcome event later in
    the same trace: whatever follows the trace starts on settled ground. *)
Fixpoint stages_settled (t : list Action) : bool :=
  match t with
  | [] => true
  | a :: rest =>
      match stage_of a with
      | Some s => outcome_settled s rest
      | None => true
      end && stages_settled rest
  end.

(** Every piece of stage work, cleanup apart, has an audit event of its
    stage somewhere in the trace. *)
Definition stages_announced (t : list Action) : bool :=
  forallb (λ a, match stage_of a with
                | Some s => String.eqb s "CLEANUP" || existsb (is_event_of s) t
                | None => true
                end) t.

(** What cleanup may do: delete a file, or warn under the name CLEANUP. *)
Definition cleanup_action (a : Action) : bool :=
  match a with
  | Unlink _ => true
  | Log e => String.eqb (stage e) "CLEANUP" && String.eqb (severity e) "WARNING"
  | _ => false
  end.

(** The two shapes of a returned dict. *)
Definition error_keys : gset string := {[ "error" ]}.

Definition success_keys : gset string :=
  {[ "summary"; "transcript"; "detected_language"; "chunks";
     "cluster_summaries" ]}.

Definition error_shape (d : Dict) : Prop :=
  dom d = error_keys ∧ ∃ msg, d !! "error" = Some (Py.VStr msg).

Definition success_shape (d : Dict) : Prop := dom d = success_keys.

(** [o] with both denoise flags cleared. *)
Definition without_denoise (o : Options) : Options :=
  mkOptions false false (force_wav o) (transcriber_model o) (chunk_size o)
            (language o).

(** Two extensions that differ in letter case only. *)
Definition same_up_to_case (s t : string) : Prop := Py.lower s = Py.lower t.

(** Deleting the files of [folder] raises. *)
Definition deletion_fails (w : World) (folder : Path.t) : Prop :=
  ∃ e, outcome (walk_folder w folder) = Raise e.

(** ** Properties of runs, as predicates *)

(** A property of runs that passes through sequencing. *)
Definition BindRule (Q : ∀ A, M A → Prop) : Prop :=
  ∀ A B (m : M A) (f : A → M B),
    Q A m → (∀ a, Q B (f a)) → Q B (m ≫= f).

(** A stage returns nothing but a well-shaped dict. *)
Definition ReturnsShaped (A : Type) (m : M A) : Prop :=
  ∀ d, outcome m = Return d → error_shape d ∨ success_shape d.

(** Every action of the trace satisfies [P]. *)
Definition TraceAll (P : Action → Prop) (A : Type) (m : M A) : Prop :=
  Forall P (trace m).



(** The event that closes the correction stage (line 111). *)
Definition correction_done : Action :=
  Log (mkEvent "CORRECTION" "SUCCESS" "Language correction applied" []).

(** Neither a TRANSCRIPTION event nor a call of the speech model. *)
Definition no_transcription (a : Action) : Prop :=
  is_event_of "TRANSCRIPTION" a = false ∧ stage_of a ≠ Some "TRANSCRIPTION".

(** [stages_announced], of the trace of a run. *)
Definition Announced (A : Type) (m : M A) : Prop :=
  stages_announced (trace m) = true.

(** [stages_recorded], of the trace of a run; a run that continues leaves
    every stage settled. *)
Definition Recorded (A : Type) (m : M A) : Prop :=
  stages_recorded (trace m) = true
  ∧ ∀ a, outcome m = Continue a → stages_settled (trace m) = true.

(** ** Further vocabulary for whole-run properties *)

(** As [BindRule], the continuation being asked only about what the first
    part hands over. *)
Definition BindRuleL (Q : ∀ A, M A → Prop) : Prop :=
  ∀ A B (m : M A) (f : A → M B),
    Q A m → (∀ a, outcome m = Continue a → Q B (f a)) → Q B (m ≫= f).

(** The five structured errors of [run_pipeline] on input [p]
    (lines 44, 49, 63, 100 and 114). *)
Definition known_error (p : Path.t) (d : Dict) : Prop :=
  d = error_dict ("File not found: " +:+ p)
  ∨ d = error_dict ("Unsupported file type: " +:+ Py.lower (Path.suffix p))
  ∨ d = error_dict "Video conversion failed"
  ∨ (∃ e, d = error_dict ("Model initialization failed: " +:+ Py.exn_msg e))
  ∨ d = error_dict "Transcription failed".

(** The cluster map lines 124-130 leave in [clusters]. *)
Definition clusters_of (su : Summarizer) (chunks : list string) : Clusters :=
  if (7 <? Z.of_nat (length chunks))%Z then cluster_chunks su chunks
  else {[ 0%Z := chunks ]}.

(** The dict lines 116-159 build from the corrected transcript and the
    detected language. *)
Definition result_of (su : Summarizer) (o : Options)
    (transcript detected_language : string) : Dict :=
  let chunks := chunk_text su transcript (chunk_size o) in
  let summaries :=
    get_final_summary su (clusters_of su chunks) detected_language in
  success_dict summaries.2 transcript detected_language chunks summaries.1.

(** The two paths normalisation writes to (lines 58 and 71). *)
Definition video_output (p : Path.t) : Path.t :=
  Path.join "data/audio" (Path.stem p +:+ ".wav").

Definition audio_output (p : Path.t) : Path.t :=
  Path.join "data/audio" (Path.stem p +:+ "_standardized.wav").

(** The action is neither a converter call nor a directory creation. *)
Definition no_conversion (a : Action) : bool :=
  match a with
  | Mkdir _ | ConvertVideo _ _ | ConvertAudio _ _ => false
  | _ => true
  end.

(** A run that saved: everything before the one [Save] leaves the log
    unsaved, everything after it is cleanup. *)
Definition saved_once (t : list Action) : Prop :=
  ∃ before after,
    t = before ++ Save :: after
    ∧ saves before = 0
    ∧ Forall (λ a, cleanup_action a = true) after.

(** Saving goes with success: a run part that did not save returns
    errors only; one that saved returns the success dict. *)
Definition SavesOnSuccess (A : Type) (m : M A) : Prop :=
  (saves (trace m) = 0 ∧ ∀ d, outcome m = Return d → error_shape d)
  ∨ (saved_once (trace m) ∧ ∃ d, outcome m = Return d ∧ success_shape d).

(** Every character of the text is white space. *)
Definition all_space (s : string) : bool :=
  forallb Py.isspace (list_ascii_of_string s).

(** The text begins, or ends, with a white space character. *)
Definition starts_with_space (s : string) : bool :=
  match s with
  | String c _ => Py.isspace c
  | EmptyString => false
  end.

Fixpoint ends_with_space (s : string) : bool :=
  match s with
  | EmptyString => false
  | String c EmptyString => Py.isspace c
  | String _ s' => ends_with_space s'
  end.

(** Lines 54-80 call a converter for this input type: a video, or an
    audio file that is not WAV or whose standardisation is forced. *)
Definition converts (o : Options) (ty : string) : bool :=
  Py.str_in ty video_types
  || (Py.str_in ty audio_types
      && (negb (String.eqb ty ".wav") || force_wav o)).


(** What a part of the run on input [p] may return: one of the known
    errors, or the dict built from the summarizer's own results. *)
Definition ReturnsKnown (w : World) (p : Path.t) (o : Options)
    (A : Type) (m : M A) : Prop :=
  ∀ d, outcome m = Return d →
       known_error p d
       ∨ ∃ su transcript lang,
           new_Summarizer w = Py.Ok su ∧ d = result_of su o transcript lang.


(** ** More sample collaborators *)

Module More.

(** A language model that answers blanks. *)
Definition gemini_blank : string → Py.Result Response :=
  λ _, Py.Ok (mkResponse (Py.Ok "   ")).

Definition blank_corrector : Transcriber :=
  mkTranscriber Sample.whisper_ok (Some gemini_blank).

(** Under [data/audio]: two files, a directory, and a file that cannot be
    deleted, followed by one more file. *)
Definition listing : list Path.t :=
  ["data/audio/a.wav"; "data/audio/enhanced"; "data/audio/b.wav";
   "data/audio/locked.wav"; "data/audio/c.wav"].

Definition sticky : World :=
  mkWorld Sample.all_present
    (λ _ dst, Some dst) (λ _ dst, Some dst) (λ _ _, None)
    (λ _, Py.Ok (mkTranscriber Sample.whisper_ok (Some Sample.gemini_ok)))
    (Py.Ok (Sample.summarizer_of 3))
    (String.eqb "data/audio") (λ _, (listing, None))
    (λ f, negb (String.eqb f "data/audio/enhanced"))
    (λ f, if String.eqb f "data/audio/locked.wav"
          then Py.Raises (Py.mkExn "PermissionError" "file in use")
          else Py.Ok tt).

(** The same folder without the locked file. *)
Definition tidy : World :=
  mkWorld Sample.all_present
    (λ _ dst, Some dst) (λ _ dst, Some dst) (λ _ _, None)
    (λ _, Py.Ok (mkTranscriber Sample.whisper_ok (Some Sample.gemini_ok)))
    (Py.Ok (Sample.summarizer_of 3))
    (String.eqb "data/audio")
    (λ _, (["data/audio/a.wav"; "data/audio/enhanced"; "data/audio/b.wav"],
           None))
    (λ f, negb (String.eqb f "data/audio/enhanced"))
    (λ _, Py.Ok tt).

End More.

(** * Properties *)

(** ** Sanity checks of the text and path operations *)

Example suffix_talk : Path.suffix "media/talk.MP4" = ".MP4".
Proof. reflexivity. Qed.

Example stem_talk : Path.stem "media/talk.tar.gz" = "talk.tar".
Proof. reflexivity. Qed.

Example suffix_hidden : Path.suffix ".bashrc" = "".
Proof. reflexivity. Qed.

Example lower_mixed : Py.lower ".WaV" = ".wav".
Proof. reflexivity. Qed.

Example strip_both : Py.strip "  hello world
 " = "hello world".
Proof. reflexivity. Qed.

(** ** The monad: traces and outcomes of a sequence *)

Lemma trace_bind {A B} (m : M A) (f : A → M B) :
  trace (m ≫= f)
  = trace m ++ match outcome m with Continue a => trace (f a) | _ => [] end.
Proof. reflexivity. Qed.

Lemma outcome_bind {A B} (m : M A) (f : A → M B) :
  outcome (m ≫= f)
  = match outcome m with
    | Continue a => outcome (f a)
    | Return d => Return d
    | Raise e => Raise e
    end.
Proof. reflexivity. Qed.

Lemma trace_bind_continue {A B} (m : M A) (f : A → M B) a :
  outcome m = Continue a → trace (m ≫= f) = trace m ++ trace (f a).
Proof. intros H. rewrite trace_bind, H. reflexivity. Qed.

Lemma outcome_bind_continue {A B} (m : M A) (f : A → M B) a :
  outcome m = Continue a → outcome (m ≫= f) = outcome (f a).
Proof. intros H. rewrite outcome_bind, H. reflexivity. Qed.

Lemma trace_bind_prefix {A B} (m : M A) (f : A → M B) a :
  In a (trace m) → In a (trace (m ≫= f)).
Proof. intros H. rewrite trace_bind. apply in_or_app. left. exact H. Qed.

Lemma trace_bind_suffix {A B} (m : M A) (f : A → M B) x a :
  outcome m = Continue x → In a (trace (f x)) → In a (trace (m ≫= f)).
Proof.
  intros Hm H. rewrite (trace_bind_continue _ _ _ Hm).
  apply in_or_app. right. exact H.
Qed.

(** ** A proof rule for the whole pipeline *)

(** A property that passes through sequencing and holds of every stage,
    whatever the stage receives, holds of [run_pipeline]. *)
Lemma pipeline_rule (Q : ∀ A, M A → Prop) w p o :
  BindRule Q →
  Q _ (validate w p o) →
  (∀ ty, Q _ (normalize w p o ty)) →
  (∀ ap, Q _ (enhance w o ap)) →
  Q _ (init_models w o) →
  (∀ tr ap, Q _ (transcribe_stage o tr ap)) →
  (∀ su text, Q _ (chunk_stage o su text)) →
  (∀ su chunks, Q _ (cluster_stage su chunks)) →
  (∀ su cl lang, Q _ (summarize_stage su cl lang)) →
  Q _ complete_stage →
  (∀ fs tr lang chunks cs,
     Q Empty_set
       (cleanup w ≫= λ _, return_ (success_dict fs tr lang chunks cs))) →
  Q _ (run_pipeline w p o).
Proof.
  intros Hb Hv Hn He Hi Ht Hch Hcl Hs Hco Hfin.
  unfold run_pipeline, after_validation, after_enhancement.
  apply Hb; [exact Hv|]. intros ty.
  apply Hb; [apply Hn|]. intros ap.
  apply Hb; [apply He|]. intros ap'.
  apply Hb; [apply Hi|]. intros [tr su].
  apply Hb; [apply Ht|]. intros [transcript lang].
  apply Hb; [apply Hch|]. intros chunks.
  apply Hb; [apply Hcl|]. intros clusters.
  apply Hb; [apply Hs|]. intros [cs fs].
  apply Hb; [exact Hco|]. intros _.
  apply Hfin.
Qed.

(** ** Case analysis of one stage *)

Ltac run_simpl :=
  cbn [mbind M_bind mret M_ret log emit call return_ raise try_except
       fst snd trace outcome app negb orb andb].

Ltac case_on x := let E := fresh "E" in destruct x eqn:E.

(** Split on the next answer of the world that the goal waits for. *)
Ltac oracle_step :=
  run_simpl;
  match goal with
  | |- context [path_exists ?w ?p] => case_on (path_exists w p)
  | |- context [Py.str_in ?t ?l] => case_on (Py.str_in t l)
  | |- context [convert_video_to_audio ?w ?a ?b] =>
      case_on (convert_video_to_audio w a b)
  | |- context [negb (String.eqb ?t ".wav") || force_wav ?o] =>
      case_on (negb (String.eqb t ".wav") || force_wav o)
  | |- context [convert_audio_format ?w ?a ?b] =>
      case_on (convert_audio_format w a b)
  | |- context [denoise ?o || aggressive_denoise ?o] =>
      case_on (denoise o || aggressive_denoise o)
  | |- context [enhance_audio ?w ?a ?b] => case_on (enhance_audio w a b)
  | |- context [new_Transcriber ?w ?a] => case_on (new_Transcriber w a)
  | |- context [new_Summarizer ?w] => case_on (new_Summarizer w)
  | |- context [model ?tr ?a ?b] => case_on (model tr a b)
  | |- context [Py.truthy ?r] => case_on (Py.truthy r)
  | |- context [gemini_model ?tr] => case_on (gemini_model tr)
  | |- context [match ?g (correction_prompt ?a ?b) with _ => _ end] =>
      case_on (g (correction_prompt a b))
  | |- context [resp_text ?r] => case_on (resp_text r)
  | |- context [(7 <? ?n)%Z] => case_on (7 <? n)%Z
  | |- context [get_final_summary ?s ?c ?l] =>
      case_on (get_final_summary s c l)
  end.

Ltac stage_cases := repeat oracle_step; run_simpl.

(** ** Supported extensions *)

Lemma supported_split t :
  Py.str_in t type_supported
  = Py.str_in t video_types || Py.str_in t audio_types.
Proof.
  unfold Py.str_in, type_supported, video_types, audio_types. cbn.
  repeat (destruct (String.eqb t _); cbn; try reflexivity).
Qed.

Lemma str_in_In x xs : Py.str_in x xs = true ↔ In x xs.
Proof.
  unfold Py.str_in. rewrite existsb_exists. split.
  - intros (y & Hy & Heq). apply String.eqb_eq in Heq. subst. exact Hy.
  - intros H. exists x. split; [exact H | apply String.eqb_refl].
Qed.

(** ** Cleanup *)

Lemma unlink_if_file_cases w f :
  unlink_if_file w f = ([], Continue tt)
  ∨ unlink_if_file w f = ([Unlink f], Continue tt)
  ∨ ∃ e, unlink_if_file w f = ([Unlink f], Raise e).
Proof.
  unfold unlink_if_file. destruct (is_file w f); [|left; reflexivity].
  right. destruct (unlink w f) as [[]|e]; [left|right; exists e]; reflexivity.
Qed.

Lemma for_each_cons {A} (x : A) xs body :
  for_each (x :: xs) body = body x ≫= λ _, for_each xs body.
Proof. reflexivity. Qed.

(** Walking the files of a folder only unlinks, and ends normally or by
    the exception of an [unlink]. *)
Lemma for_each_unlink w files :
  ∃ t, Forall (λ a, ∃ f, a = Unlink f) t ∧
    (for_each files (unlink_if_file w) = (t, Continue tt)
     ∨ ∃ e, for_each files (unlink_if_file w) = (t, Raise e)).
Proof.
  induction files as [|f files (t & Hall & Hrun)].
  - exists []. split; [constructor|]. left. reflexivity.
  - rewrite for_each_cons.
    destruct (unlink_if_file_cases w f) as [-> | [-> | [e ->]]].
    + exists t. split; [assumption|].
      destruct Hrun as [-> | [e ->]]; [left|right; exists e]; reflexivity.
    + exists (Unlink f :: t). split; [constructor; eauto|].
      destruct Hrun as [-> | [e ->]]; [left|right; exists e]; reflexivity.
    + exists [Unlink f]. split; [repeat constructor; eauto|].
      right. exists e. reflexivity.
Qed.

Lemma walk_folder_unlinks w folder :
  Forall (λ a, ∃ f, a = Unlink f) (trace (walk_folder w folder)).
Proof.
  unfold walk_folder. destruct (folder_exists w folder); [|constructor].
  destruct (rglob w folder) as [files stop].
  destruct (for_each_unlink w files) as (t & Hall & [Hrun | [e Hrun]]);
    rewrite Hrun; destruct stop; cbn; rewrite ?app_nil_r; exact Hall.
Qed.

Lemma walk_folder_no_return w folder d :
  outcome (walk_folder w folder) ≠ Return d.
Proof.
  unfold walk_folder. destruct (folder_exists w folder); [|discriminate].
  destruct (rglob w folder) as [files stop].
  destruct (for_each_unlink w files) as (t & Hall & [Hrun | [e Hrun]]);
    rewrite Hrun; destruct stop; discriminate.
Qed.

Lemma clean_folder_continues w folder :
  outcome (clean_folder w folder) = Continue tt.
Proof.
  unfold clean_folder, try_except. cbn [outcome snd].
  pose proof (walk_folder_no_return w folder) as Hno.
  unfold outcome in Hno.
  destruct (walk_folder w folder).2 as [[]|d|e]; cbn;
    [reflexivity | destruct (Hno d); reflexivity | reflexivity].
Qed.

Lemma clean_folder_actions w folder :
  Forall (λ a, cleanup_action a = true) (trace (clean_folder w folder)).
Proof.
  unfold clean_folder, try_except. cbn [trace fst].
  apply Forall_app. split.
  - eapply Forall_impl; [apply walk_folder_unlinks|].
    intros a [f ->]. reflexivity.
  - destruct (walk_folder w folder).2; repeat constructor.
Qed.

Lemma cleanup_spec w :
  ∃ t, cleanup w = (t, Continue tt) ∧ Forall (λ a, cleanup_action a = true) t.
Proof.
  unfold cleanup. generalize temp_folders. intros fs.
  induction fs as [|f fs (t & Heq & Hall)].
  - exists []. split; [reflexivity|constructor].
  - rewrite for_each_cons.
    pose proof (clean_folder_continues w f) as Hc.
    pose proof (clean_folder_actions w f) as Ha.
    destruct (clean_folder w f) as [t0 out]. cbn in Hc, Ha. subst out.
    rewrite Heq. exists (t0 ++ t). split; [reflexivity|].
    apply Forall_app. auto.
Qed.

Lemma cleanup_then_return w d :
  ∃ t, (cleanup w ≫= λ _, return_ d) = (t, @Return Empty_set d)
       ∧ Forall (λ a, cleanup_action a = true) t.
Proof.
  destruct (cleanup_spec w) as (t & Heq & Hall). rewrite Heq.
  exists t. split; [|exact Hall]. cbn. rewrite app_nil_r. reflexivity.
Qed.

(** ** The returned dict *)

Lemma error_dict_shape msg : error_shape (error_dict msg).
Proof.
  split.
  - unfold error_dict, error_keys. apply dom_singleton_L.
  - exists msg. unfold error_dict. apply lookup_singleton_eq.
Qed.

Lemma success_dict_shape fs tr lang chunks cs :
  success_shape (success_dict fs tr lang chunks cs).
Proof.
  unfold success_shape, success_dict, success_keys.
  rewrite !dom_insert_L, dom_singleton_L. set_solver.
Qed.

Lemma shapes_exclusive d : error_shape d → success_shape d → False.
Proof.
  unfold error_shape, success_shape, error_keys, success_keys.
  intros [He _] Hs. rewrite He in Hs.
  assert (H : "summary" ∈ ({[ "error" ]} : gset string))
    by (rewrite Hs; set_solver).
  apply elem_of_singleton in H. discriminate H.
Qed.

Lemma ReturnsShaped_bind : BindRule ReturnsShaped.
Proof.
  intros A B m f Hm Hf d. rewrite outcome_bind.
  destruct (outcome m) as [a|d'|e] eqn:E.
  - apply Hf.
  - intros [= <-]. apply Hm. exact E.
  - discriminate.
Qed.

Ltac shaped :=
  intros d; stage_cases;
  first [ discriminate
        | intros [= <-]; left; apply error_dict_shape
        | intros [= <-]; right; apply success_dict_shape ].

Lemma run_pipeline_shaped w p o : ReturnsShaped _ (run_pipeline w p o).
Proof.
  apply pipeline_rule.
  - exact ReturnsShaped_bind.
  - unfold validate. shaped.
  - intros ty. unfold normalize. shaped.
  - intros ap. unfold enhance. shaped.
  - unfold init_models. shaped.
  - intros tr [ap|]; unfold transcribe_stage, transcribe, language_rules; shaped.
  - intros su text. unfold chunk_stage. shaped.
  - intros su chunks. unfold cluster_stage. shaped.
  - intros su cl lang. unfold summarize_stage. shaped.
  - unfold complete_stage. shaped.
  - intros fs tr lang chunks cs d.
    destruct (cleanup_then_return w (success_dict fs tr lang chunks cs))
      as (t & -> & _).
    intros [= <-]. right. apply success_dict_shape.
Qed.

(** C8. Every value [run_pipeline] returns has exactly one of two shapes:
    its only key is [error], bound to a string, or its keys are
    exactly [summary], [transcript], [detected_language], [chunks] and
    [cluster_summaries]; no returned dict has both shapes. *)
Theorem returned_value_has_one_shape w p o d :
  outcome (run_pipeline w p o) = Return d →
  (error_shape d ∧ ¬ success_shape d) ∨ (success_shape d ∧ ¬ error_shape d).
Proof.
  intros H. destruct (run_pipeline_shaped w p o d H) as [He|Hs].
  - left. split; [exact He|]. intros Hs. exact (shapes_exclusive d He Hs).
  - right. split; [exact Hs|]. intros He. exact (shapes_exclusive d He Hs).
Qed.

(** ** Trace invariants *)

Lemma TraceAll_bind P : BindRule (TraceAll P).
Proof.
  intros A B m f Hm Hf. unfold TraceAll in *. rewrite trace_bind.
  apply Forall_app. split; [exact Hm|].
  destruct (outcome m); [apply Hf | constructor | constructor].
Qed.


(** Cleanup touches nothing but files and its own warnings. *)
Lemma cleanup_TraceAll (P : Action → Prop) w d :
  (∀ a, cleanup_action a = true → P a) →
  TraceAll P Empty_set (cleanup w ≫= λ _, return_ d).
Proof.
  intros HP. destruct (cleanup_then_return w d) as (t & -> & Hall).
  unfold TraceAll. cbn. eapply Forall_impl; [exact Hall | exact HP].
Qed.

(** Close a goal [In a l] for a list [l] that is written out. *)
Ltac in_list := cbn [In]; solve [repeat first [left; reflexivity | right]].



Example missing_talk_mp4 :
  outcome (run_pipeline Sample.empty_disk "talk.mp4" default_options)
  = Return {[ "error" := Py.VStr "File not found: talk.mp4" ]}.
Proof. reflexivity. Qed.

(** ** Language correction *)




(** ** Clustering *)

(** Check [P] on each action of a trace that is written out. *)
Ltac each_action tac :=
  unfold TraceAll; cbn [trace fst];
  repeat (apply Forall_cons; split; [tac|]); apply Forall_nil; exact I.

Ltac no_such_call := intros; discriminate.



(** ** The enhancement gate *)

Lemma enhancer_only_on_request w p o :
  TraceAll (λ a, ∀ ap ag, a = Enhance ap ag →
                 denoise o || aggressive_denoise o = true) _
           (run_pipeline w p o).
Proof.
  apply pipeline_rule.
  - apply TraceAll_bind.
  - unfold validate. stage_cases; each_action no_such_call.
  - intros ty. unfold normalize. stage_cases; each_action no_such_call.
  - intros ap. unfold enhance.
    stage_cases; each_action ltac:(first [no_such_call | intros; reflexivity]).
  - unfold init_models. stage_cases; each_action no_such_call.
  - intros tr [ap|]; unfold transcribe_stage, transcribe, language_rules;
      stage_cases; each_action no_such_call.
  - intros su text. unfold chunk_stage. stage_cases; each_action no_such_call.
  - intros su chunks. unfold cluster_stage.
    stage_cases; each_action no_such_call.
  - intros su cl lang. unfold summarize_stage.
    stage_cases; each_action no_such_call.
  - unfold complete_stage. stage_cases; each_action no_such_call.
  - intros fs tr lang chunks cs. apply cleanup_TraceAll.
    intros [] Ha; try discriminate Ha; no_such_call.
Qed.

(** The outcome of validation does not look at the options. *)
Lemma validate_outcome_options w p o o' :
  outcome (validate w p o) = outcome (validate w p o').
Proof. unfold validate. stage_cases; reflexivity. Qed.

(** The outcome of normalisation does not look at the denoise flags. *)
Lemma normalize_outcome_without_denoise w p o ty :
  outcome (normalize w p (without_denoise o) ty) = outcome (normalize w p o ty).
Proof.
  unfold normalize, without_denoise. cbn [force_wav].
  stage_cases; reflexivity.
Qed.

Lemma after_enhancement_without_denoise w o ap :
  after_enhancement w (without_denoise o) ap = after_enhancement w o ap.
Proof. reflexivity. Qed.

(** The run, cut at the gate. *)
Lemma run_through_gate w p o ty ap :
  outcome (validate w p o) = Continue ty →
  outcome (normalize w p o ty) = Continue ap →
  trace (run_pipeline w p o)
  = trace (validate w p o) ++ trace (normalize w p o ty)
    ++ trace (enhance w o ap ≫= after_enhancement w o)
  ∧ outcome (run_pipeline w p o)
    = outcome (enhance w o ap ≫= after_enhancement w o).
Proof.
  intros Hv Hn. unfold run_pipeline. split.
  - rewrite (trace_bind_continue _ _ _ Hv). unfold after_validation.
    rewrite (trace_bind_continue _ _ _ Hn). reflexivity.
  - rewrite (outcome_bind_continue _ _ _ Hv). unfold after_validation.
    rewrite (outcome_bind_continue _ _ _ Hn). reflexivity.
Qed.

Lemma enhance_failure w o ap :
  enhance_audio w ap (aggressive_denoise o) = None →
  outcome (enhance w o ap) = Continue ap.
Proof. intros H. unfold enhance. rewrite H. stage_cases; reflexivity. Qed.

Lemma enhance_skipped w o ap :
  denoise o || aggressive_denoise o = false →
  outcome (enhance w o ap) = Continue ap.
Proof. intros H. unfold enhance. rewrite H. reflexivity. Qed.

(** C7. For a run that reaches the enhancement gate (validation and
    normalisation passed, the audio artifact being [ap]): the enhancer is
    called, on [ap], if and only if [denoise] or [aggressive_denoise] is
    set, and no run calls it with both flags clear. When the enhancer
    answers [None], the gate logs an ERROR event and continues with [ap]
    unchanged: the run ends exactly as the rest of the pipeline ends on
    [ap], which is also how the same run ends with both flags clear. *)
Theorem enhancement_is_best_effort w p o ty ap :
  outcome (validate w p o) = Continue ty →
  outcome (normalize w p o ty) = Continue ap →
  (denoise o || aggressive_denoise o = true
   ↔ In (Enhance ap (aggressive_denoise o)) (trace (run_pipeline w p o)))
  ∧ (∀ a ag, In (Enhance a ag) (trace (run_pipeline w p o)) →
       denoise o || aggressive_denoise o = true)
  ∧ (enhance_audio w ap (aggressive_denoise o) = None →
     outcome (enhance w o ap) = Continue ap
     ∧ (denoise o || aggressive_denoise o = true →
        In (Log (mkEvent "AUDIO_ENHANCEMENT" "ERROR"
                   "Audio enhancement failed. Proceeding with original audio."
                   []))
           (trace (run_pipeline w p o)))
     ∧ outcome (run_pipeline w p o) = outcome (after_enhancement w o ap)
     ∧ outcome (run_pipeline w p o)
       = outcome (run_pipeline w p (without_denoise o))).
Proof.
  intros Hv Hn.
  destruct (run_through_gate w p o ty ap Hv Hn) as [Ht Ho].
  assert (Honly : ∀ a ag, In (Enhance a ag) (trace (run_pipeline w p o)) →
                          denoise o || aggressive_denoise o = true).
  { intros a ag H. pose proof (enhancer_only_on_request w p o) as Hall.
    unfold TraceAll in Hall. rewrite Forall_forall in Hall.
    apply list_elem_of_In in H. exact (Hall _ H a ag eq_refl). }
  split; [split|split].
  - intros Hf. rewrite Ht. apply in_or_app. right. apply in_or_app. right.
    apply trace_bind_prefix. unfold enhance. rewrite Hf.
    stage_cases; in_list.
  - apply Honly.
  - exact Honly.
  - intros Hnone. pose proof (enhance_failure w o ap Hnone) as He.
    split; [exact He|]. split; [|split].
    + intros Hf. rewrite Ht. apply in_or_app. right. apply in_or_app. right.
      apply trace_bind_prefix. unfold enhance. rewrite Hf, Hnone.
      run_simpl. in_list.
    + rewrite Ho. apply (outcome_bind_continue _ _ _ He).
    + rewrite Ho, (outcome_bind_continue _ _ _ He).
      assert (Hv' : outcome (validate w p (without_denoise o)) = Continue ty)
        by (rewrite <- Hv; apply validate_outcome_options).
      assert (Hn' : outcome (normalize w p (without_denoise o) ty)
                    = Continue ap)
        by (rewrite <- Hn; apply normalize_outcome_without_denoise).
      destruct (run_through_gate w p (without_denoise o) ty ap Hv' Hn')
        as [_ Ho'].
      rewrite Ho'.
      rewrite (outcome_bind_continue _ _ ap
                 (enhance_skipped w (without_denoise o) ap eq_refl)).
      rewrite after_enhancement_without_denoise. reflexivity.
Qed.

(** ** Validation and normalisation *)

Lemma trace_bind_return {A B} (m : M A) (f : A → M B) d :
  outcome m = Return d →
  trace (m ≫= f) = trace m ∧ outcome (m ≫= f) = Return d.
Proof.
  intros H. rewrite trace_bind, outcome_bind, H. rewrite app_nil_r.
  split; reflexivity.
Qed.

Lemma supported_lowercase t : In t type_supported → Py.lower t = t.
Proof.
  unfold type_supported. cbn [In].
  intros H. repeat (destruct H as [<-|H]; [reflexivity|]). destruct H.
Qed.

Lemma audio_not_video t :
  Py.str_in t audio_types = true → Py.str_in t video_types = false.
Proof.
  unfold Py.str_in, audio_types, video_types. cbn [existsb].
  destruct (String.eqb_spec t ".mp4") as [->|]; [discriminate|].
  destruct (String.eqb_spec t ".mkv") as [->|]; [discriminate|].
  destruct (String.eqb_spec t ".mov") as [->|]; [discriminate|].
  reflexivity.
Qed.

Lemma validate_supported w p o :
  path_exists w p = true →
  Py.str_in (Py.lower (Path.suffix p)) type_supported = true →
  outcome (validate w p o) = Continue (Py.lower (Path.suffix p))
  ∧ In (Log (mkEvent "FILE_VALIDATION" "SUCCESS" "Input file validated"
               [("file_type", Py.VStr (Py.lower (Path.suffix p)))]))
       (trace (validate w p o)).
Proof.
  intros He Hs. unfold validate. rewrite He, Hs. run_simpl.
  split; [reflexivity | in_list].
Qed.

Lemma init_models_ok w o tr su :
  new_Transcriber w (transcriber_model o) = Py.Ok tr →
  new_Summarizer w = Py.Ok su →
  outcome (init_models w o) = Continue (tr, su).
Proof. intros Ht Hs. unfold init_models. rewrite Ht, Hs. reflexivity. Qed.

(** With a path in hand, the transcription stage opens with its INFO event
    and the call of the speech model on that path. *)
Lemma transcribe_stage_opens o tr audio :
  In (Log (mkEvent "TRANSCRIPTION" "INFO"
             ("Starting transcription of: " +:+ Path.name audio) []))
     (trace (transcribe_stage o tr (Some audio)))
  ∧ In (WhisperTranscribe audio (language_given (language o)))
       (trace (transcribe_stage o tr (Some audio))).
Proof.
  unfold transcribe_stage, transcribe. run_simpl. split.
  - left. reflexivity.
  - right. left. reflexivity.
Qed.

Ltac quiet := split; [reflexivity | discriminate].

(** C2, as the code has it. A video input whose conversion answers [None]
    ends the run with [{"error": "Video conversion failed"}]; no
    TRANSCRIPTION event is logged and the speech model is not called. An
    audio input whose standardisation answers [None] logs a WARNING and
    goes on with the original input path as the audio artifact: that path
    is what the enhancement gate receives, and when the models can be
    built and enhancement is off or fails, the transcription stage is
    reached and transcribes the original path. *)
Theorem normalization_failure_is_asymmetric w p o :
  path_exists w p = true →
  (Py.str_in (Py.lower (Path.suffix p)) video_types = true →
   convert_video_to_audio w p
     (Path.join "data/audio" (Path.stem p +:+ ".wav")) = None →
   outcome (run_pipeline w p o) = Return (error_dict "Video conversion failed")
   ∧ Forall no_transcription (trace (run_pipeline w p o)))
  ∧ (Py.str_in (Py.lower (Path.suffix p)) audio_types = true →
     negb (String.eqb (Py.lower (Path.suffix p)) ".wav") || force_wav o = true →
     convert_audio_format w p
       (Path.join "data/audio" (Path.stem p +:+ "_standardized.wav")) = None →
     In (Log (mkEvent "AUDIO_PROCESSING" "WARNING"
                "Audio format conversion failed. Using original file." []))
        (trace (run_pipeline w p o))
     ∧ outcome (normalize w p o (Py.lower (Path.suffix p))) = Continue (Some p)
     ∧ outcome (run_pipeline w p o)
       = outcome (enhance w o (Some p) ≫= after_enhancement w o)
     ∧ (∀ tr su,
          new_Transcriber w (transcriber_model o) = Py.Ok tr →
          new_Summarizer w = Py.Ok su →
          denoise o || aggressive_denoise o = false
          ∨ enhance_audio w (Some p) (aggressive_denoise o) = None →
          In (Log (mkEvent "TRANSCRIPTION" "INFO"
                     ("Starting transcription of: " +:+ Path.name p) []))
             (trace (run_pipeline w p o))
          ∧ In (WhisperTranscribe p (language_given (language o)))
               (trace (run_pipeline w p o)))).
Proof.
  intros Hex. split.
  - intros Hvid Hconv.
    assert (Hsup : Py.str_in (Py.lower (Path.suffix p)) type_supported = true)
      by (rewrite supported_split, Hvid; reflexivity).
    destruct (validate_supported w p o Hex Hsup) as [Hv _].
    assert (Hn : outcome (normalize w p o (Py.lower (Path.suffix p)))
                 = Return (error_dict "Video conversion failed")).
    { unfold normalize. rewrite Hvid. run_simpl. rewrite Hconv. reflexivity. }
    unfold run_pipeline. split.
    + rewrite (outcome_bind_continue _ _ _ Hv). unfold after_validation.
      apply (trace_bind_return _ _ _ Hn).
    + rewrite (trace_bind_continue _ _ _ Hv). unfold after_validation.
      rewrite (proj1 (trace_bind_return _ _ _ Hn)).
      apply Forall_app. split.
      * unfold validate. rewrite Hex, Hsup. run_simpl.
        each_action quiet.
      * unfold normalize. rewrite Hvid. run_simpl. rewrite Hconv. run_simpl.
        each_action quiet.
  - intros Haud Hwav Hconv.
    pose proof (audio_not_video _ Haud) as Hvid.
    assert (Hsup : Py.str_in (Py.lower (Path.suffix p)) type_supported = true)
      by (rewrite supported_split, Haud; apply orb_true_r).
    destruct (validate_supported w p o Hex Hsup) as [Hv _].
    assert (Hn : outcome (normalize w p o (Py.lower (Path.suffix p)))
                 = Continue (Some p)).
    { unfold normalize. rewrite Hvid, Haud. run_simpl. rewrite Hwav.
      run_simpl. rewrite Hconv. reflexivity. }
    destruct (run_through_gate w p o _ _ Hv Hn) as [Ht Ho].
    split; [|split; [exact Hn|split; [exact Ho|]]].
    + rewrite Ht. apply in_or_app. right. apply in_or_app. left.
      unfold normalize. rewrite Hvid, Haud. run_simpl. rewrite Hwav.
      run_simpl. rewrite Hconv. run_simpl. in_list.
    + intros tr su Htr Hsu Henh.
      assert (He : outcome (enhance w o (Some p)) = Continue (Some p))
        by (destruct Henh; [apply enhance_skipped | apply enhance_failure];
            assumption).
      pose proof (init_models_ok w o tr su Htr Hsu) as Hi.
      destruct (transcribe_stage_opens o tr p) as [Hlog Hcall].
      rewrite Ht.
      split; apply in_or_app; right; apply in_or_app; right;
        apply (trace_bind_suffix _ _ _ _ He); unfold after_enhancement;
        apply (trace_bind_suffix _ _ _ _ Hi); apply trace_bind_prefix;
        assumption.
Qed.

(** C2 as stated fails: an audio input whose standardisation answers
    [None] does not always reach the transcription stage. Here the speech
    model cannot be loaded, and the run ends on the initialisation error
    with no TRANSCRIPTION event. *)
Lemma audio_fallback_can_stop_before_transcription :
  let w := Sample.no_codec_no_model in
  let run := run_pipeline w "talk.mp3" default_options in
  path_exists w "talk.mp3" = true
  ∧ Py.str_in (Py.lower (Path.suffix "talk.mp3")) audio_types = true
  ∧ convert_audio_format w "talk.mp3" "data/audio/talk_standardized.wav" = None
  ∧ outcome run
    = Return (error_dict "Model initialization failed: out of memory")
  ∧ existsb (is_event_of "TRANSCRIPTION") (trace run) = false
  ∧ ¬ In (WhisperTranscribe "talk.mp3" None) (trace run).
Proof.
  cbv zeta. repeat split; try reflexivity.
  intros H. vm_compute in H.
  repeat (destruct H as [H|H]; [discriminate H|]). exact H.
Qed.

(** C10. The extension test ignores letter case. For an existing input
    whose suffix differs from a supported extension [t] in letter case
    only, validation succeeds with [input_type = t], the SUCCESS event
    records [t], and the run goes on as lines 52-159 do for [t]. *)
Theorem extension_case_is_ignored w p o t :
  path_exists w p = true →
  In t type_supported →
  same_up_to_case (Path.suffix p) t →
  outcome (validate w p o) = Continue t
  ∧ In (Log (mkEvent "FILE_VALIDATION" "SUCCESS" "Input file validated"
               [("file_type", Py.VStr t)]))
       (trace (validate w p o))
  ∧ trace (run_pipeline w p o)
    = trace (validate w p o) ++ trace (after_validation w p o t)
  ∧ outcome (run_pipeline w p o) = outcome (after_validation w p o t).
Proof.
  intros Hex Ht Hcase. unfold same_up_to_case in Hcase.
  rewrite (supported_lowercase t Ht) in Hcase.
  assert (Hsup : Py.str_in (Py.lower (Path.suffix p)) type_supported = true)
    by (rewrite Hcase; apply str_in_In; exact Ht).
  destruct (validate_supported w p o Hex Hsup) as [Hv Hlog].
  rewrite Hcase in Hv, Hlog.
  split; [exact Hv|]. split; [exact Hlog|]. unfold run_pipeline. split.
  - apply (trace_bind_continue _ _ _ Hv).
  - apply (outcome_bind_continue _ _ _ Hv).
Qed.

Example upper_case_mp4 :
  outcome (validate Sample.good "talk.MP4" default_options) = Continue ".mp4".
Proof. reflexivity. Qed.

Example mixed_case_wav :
  outcome (validate Sample.good "memo.WaV" default_options) = Continue ".wav".
Proof. reflexivity. Qed.

(** ** Transcription failure *)

(** Any exception of the speech model makes [transcribe] answer [None]. *)
Lemma transcribe_swallows self file language e :
  model self file (language_given language) = Py.Raises e →
  transcribe self file language
  = ([WhisperTranscribe file (language_given language)], Continue None).
Proof. intros H. unfold transcribe. cbv zeta. run_simpl. rewrite H. reflexivity. Qed.

(** An empty text is handled: the stage logs the ERROR event and returns
    the structured error. *)
Lemma empty_transcript_is_an_error o tr audio r :
  model tr audio (language_given (language o)) = Py.Ok r →
  wr_text r = "" →
  outcome (transcribe_stage o tr (Some audio))
  = Return (error_dict "Transcription failed")
  ∧ In (Log (mkEvent "TRANSCRIPTION" "ERROR" "Transcription failed" []))
       (trace (transcribe_stage o tr (Some audio))).
Proof.
  intros Hm Ht. unfold transcribe_stage, transcribe. cbv zeta. run_simpl.
  rewrite Hm. run_simpl. rewrite Ht. run_simpl. split; [reflexivity | in_list].
Qed.

(** A [None] from [transcribe] is not: the tuple assignment of line 104
    raises before the [else] branch of line 112 can run. *)
Lemma null_transcript_raises o tr audio e :
  model tr audio (language_given (language o)) = Py.Raises e →
  transcribe_stage o tr (Some audio)
  = ([Log (mkEvent "TRANSCRIPTION" "INFO"
             ("Starting transcription of: " +:+ Path.name audio) []);
      WhisperTranscribe audio (language_given (language o))],
     Raise (Py.mkExn "TypeError" "cannot unpack non-iterable NoneType object")).
Proof.
  intros Hm. unfold transcribe_stage, transcribe. cbv zeta. run_simpl.
  rewrite Hm. reflexivity.
Qed.

(** C1, the failing run. The speech model raises on [talk.wav], so
    [Transcriber.transcribe] answers [None]; [run_pipeline] then raises
    [TypeError] at the tuple assignment instead of returning
    [{"error": "Transcription failed"}], and no TRANSCRIPTION ERROR event
    is logged. *)
Theorem null_transcription_escapes_as_type_error :
  let tr := mkTranscriber Sample.whisper_broken (Some Sample.gemini_ok) in
  let run := run_pipeline Sample.deaf "talk.wav" default_options in
  outcome (transcribe tr "talk.wav" None) = Continue None
  ∧ outcome run
    = Raise (Py.mkExn "TypeError" "cannot unpack non-iterable NoneType object")
  ∧ outcome run ≠ Return (error_dict "Transcription failed")
  ∧ existsb (is_outcome_of "TRANSCRIPTION") (trace run) = false.
Proof.
  cbv zeta. repeat split; try reflexivity.
  intros H. vm_compute in H. discriminate H.
Qed.

(** ** Saving the audit log *)

Example successful_run_saves_once :
  saves (trace (run_pipeline Sample.good "talk.mp4" default_options)) = 1.
Proof. reflexivity. Qed.

(** C3, the failing run. The input is missing: the run logs its two events,
    returns the structured error and never calls [logger.save()], so the
    logger holds the events and no log is persisted. *)
Theorem error_return_skips_save :
  let run := run_pipeline Sample.empty_disk "talk.mp4" default_options in
  outcome run = Return (error_dict "File not found: talk.mp4")
  ∧ saves (trace run) = 0
  ∧ length (events (logger_after (trace run))) = 2
  ∧ persisted (logger_after (trace run)) = [].
Proof. cbv zeta. repeat split; reflexivity. Qed.

(** The same on every run that stops at a missing input. *)
Lemma missing_input_skips_save w p o :
  path_exists w p = false →
  saves (trace (run_pipeline w p o)) = 0
  ∧ persisted (logger_after (trace (run_pipeline w p o))) = [].
Proof.
  intros H. unfold run_pipeline, validate. rewrite H. split; reflexivity.
Qed.

(** ** Stages and their audit events *)

Lemma stages_announced_app t1 t2 :
  stages_announced t1 = true → stages_announced t2 = true →
  stages_announced (t1 ++ t2) = true.
Proof.
  unfold stages_announced. intros H1 H2.
  rewrite forallb_forall in H1, H2. apply forallb_forall.
  intros a Ha. apply in_app_or in Ha.
  destruct Ha as [Ha|Ha]; [specialize (H1 a Ha) | specialize (H2 a Ha)];
    destruct (stage_of a) as [s|]; try reflexivity;
    rewrite existsb_app;
    apply orb_true_iff in H1 || apply orb_true_iff in H2.
  - destruct H1 as [->| ->]; [reflexivity | apply orb_true_r].
  - destruct H2 as [->| ->]; [reflexivity | rewrite !orb_true_r; reflexivity].
Qed.

Lemma stages_announced_spec t :
  stages_announced t = true →
  ∀ a s, In a t → stage_of a = Some s → s ≠ "CLEANUP" →
         ∃ e, In (Log e) t ∧ stage e = s.
Proof.
  unfold stages_announced. intros H a s Ha Hs Hne.
  rewrite forallb_forall in H. specialize (H a Ha). rewrite Hs in H.
  apply orb_true_iff in H. destruct H as [H|H].
  - apply String.eqb_eq in H. contradiction.
  - apply existsb_exists in H. destruct H as (b & Hb & Hev).
    destruct b; try discriminate Hev. cbn in Hev.
    apply String.eqb_eq in Hev. eauto.
Qed.

Lemma outcome_settled_app s r r' :
  outcome_settled s r = true → outcome_settled s (r ++ r') = true.
Proof.
  induction r as [|b r IH]; cbn; [discriminate|].
  destruct (is_outcome_of s b); [reflexivity|].
  destruct (stage_of b); [|exact IH].
  intros H. apply andb_true_iff in H. destruct H as [-> H]. cbn. auto.
Qed.

Lemma outcome_settled_logged s r r' :
  outcome_settled s r = true → outcome_logged s (r ++ r') = true.
Proof.
  induction r as [|b r IH]; cbn; [discriminate|].
  destruct (is_outcome_of s b); [reflexivity|].
  destruct (stage_of b); [|exact IH].
  intros H. apply andb_true_iff in H. destruct H as [-> H]. cbn. auto.
Qed.

Lemma stages_settled_app t1 t2 :
  stages_settled t1 = true → stages_settled t2 = true →
  stages_settled (t1 ++ t2) = true.
Proof.
  intros H1 H2. induction t1 as [|a t1 IH]; cbn in *; [exact H2|].
  apply andb_true_iff in H1. destruct H1 as [Ha H1].
  rewrite (IH H1), andb_true_r.
  destruct (stage_of a); [apply outcome_settled_app; exact Ha | reflexivity].
Qed.

Lemma stages_recorded_app t1 t2 :
  stages_settled t1 = true → stages_recorded t2 = true →
  stages_recorded (t1 ++ t2) = true.
Proof.
  intros H1 H2. induction t1 as [|a t1 IH]; cbn in *; [exact H2|].
  apply andb_true_iff in H1. destruct H1 as [Ha H1].
  rewrite (IH H1), andb_true_r.
  destruct (stage_of a); [apply outcome_settled_logged; exact Ha | reflexivity].
Qed.

(** Cleanup: its only staged work is [unlink], its only event the warning
    under its own name. *)
Lemma cleanup_outcome_logged t :
  Forall (λ a, cleanup_action a = true) t → outcome_logged "CLEANUP" t = true.
Proof.
  induction 1 as [|a t Ha _ IH]; [reflexivity|].
  destruct a; try discriminate Ha; cbn.
  - cbn in Ha. apply andb_true_iff in Ha. destruct Ha as [H1 H2].
    apply String.eqb_eq in H2. rewrite H1, H2. reflexivity.
  - exact IH.
Qed.

Lemma cleanup_recorded t :
  Forall (λ a, cleanup_action a = true) t → stages_recorded t = true.
Proof.
  induction 1 as [|a t Ha Hall IH]; [reflexivity|].
  cbn. rewrite IH, andb_true_r.
  destruct a; try discriminate Ha; cbn; [reflexivity|].
  apply cleanup_outcome_logged. exact Hall.
Qed.

Lemma cleanup_announced t :
  Forall (λ a, cleanup_action a = true) t → stages_announced t = true.
Proof.
  intros Hall. unfold stages_announced. apply forallb_forall.
  intros a Ha. rewrite Forall_forall in Hall.
  apply list_elem_of_In in Ha. specialize (Hall a Ha).
  destruct a; try discriminate Hall; reflexivity.
Qed.

Lemma Announced_bind : BindRule Announced.
Proof.
  intros A B m f Hm Hf. unfold Announced in *. rewrite trace_bind.
  destruct (outcome m).
  - apply stages_announced_app; [exact Hm | apply Hf].
  - rewrite app_nil_r. exact Hm.
  - rewrite app_nil_r. exact Hm.
Qed.

Lemma Recorded_bind : BindRule Recorded.
Proof.
  intros A B m f [Hr Hs] Hf. unfold Recorded. rewrite trace_bind, outcome_bind.
  destruct (outcome m) as [a|d|e].
  - destruct (Hf a) as [Hr' Hs']. split.
    + apply stages_recorded_app; [apply (Hs a); reflexivity | exact Hr'].
    + intros b Hb. apply stages_settled_app;
        [apply (Hs a); reflexivity | apply (Hs' b); exact Hb].
  - rewrite app_nil_r. split; [exact Hr | discriminate].
  - rewrite app_nil_r. split; [exact Hr | discriminate].
Qed.

Ltac announced := unfold Announced; stage_cases; reflexivity.

Ltac recorded :=
  unfold Recorded; stage_cases;
  (split; [reflexivity | intros ? ?; first [discriminate | reflexivity]]).

Lemma run_pipeline_announced w p o : Announced _ (run_pipeline w p o).
Proof.
  apply pipeline_rule.
  - exact Announced_bind.
  - unfold validate. announced.
  - intros ty. unfold normalize. announced.
  - intros ap. unfold enhance. announced.
  - unfold init_models. announced.
  - intros tr [ap|]; unfold transcribe_stage, transcribe, language_rules;
      announced.
  - intros su text. unfold chunk_stage. announced.
  - intros su chunks. unfold cluster_stage. announced.
  - intros su cl lang. unfold summarize_stage. announced.
  - unfold complete_stage. announced.
  - intros fs tr lang chunks cs.
    destruct (cleanup_then_return w (success_dict fs tr lang chunks cs))
      as (t & -> & Hall).
    apply cleanup_announced. exact Hall.
Qed.

Lemma run_pipeline_recorded w p o : Recorded _ (run_pipeline w p o).
Proof.
  apply pipeline_rule.
  - exact Recorded_bind.
  - unfold validate. recorded.
  - intros ty. unfold normalize. recorded.
  - intros ap. unfold enhance. recorded.
  - unfold init_models. recorded.
  - intros tr [ap|]; unfold transcribe_stage, transcribe, language_rules;
      recorded.
  - intros su text. unfold chunk_stage. recorded.
  - intros su chunks. unfold cluster_stage. recorded.
  - intros su cl lang. unfold summarize_stage. recorded.
  - unfold complete_stage. recorded.
  - intros fs tr lang chunks cs.
    destruct (cleanup_then_return w (success_dict fs tr lang chunks cs))
      as (t & -> & Hall).
    split; [apply cleanup_recorded; exact Hall | discriminate].
Qed.

(** A folder is warned about exactly when its deletion raises. *)
Lemma clean_folder_warns w folder :
  (∃ e, In (Log e) (trace (clean_folder w folder))) ↔ deletion_fails w folder.
Proof.
  unfold deletion_fails, clean_folder, try_except, outcome. cbn [trace fst].
  split.
  - intros (e & He). apply in_app_or in He. destruct He as [He|He].
    + pose proof (walk_folder_unlinks w folder) as Hall.
      rewrite Forall_forall in Hall. apply list_elem_of_In in He.
      destruct (Hall _ He) as [f Hf]. discriminate Hf.
    + destruct (walk_folder w folder).2 as [[]|d|x]; [destruct He | destruct He |].
      exists x. reflexivity.
  - intros (x & Hx). rewrite Hx. eexists. apply in_or_app. right. left.
    reflexivity.
Qed.

Lemma clean_folder_event w folder e :
  In (Log e) (trace (clean_folder w folder)) →
  stage e = "CLEANUP" ∧ severity e = "WARNING".
Proof.
  intros He. pose proof (clean_folder_actions w folder) as Hall.
  rewrite Forall_forall in Hall. apply list_elem_of_In in He.
  specialize (Hall _ He). cbn in Hall. apply andb_true_iff in Hall.
  destruct Hall as [H1 H2]. split; apply String.eqb_eq; assumption.
Qed.

Lemma clean_folder_quiet w folder :
  ¬ deletion_fails w folder →
  Forall (λ a, ∃ f, a = Unlink f) (trace (clean_folder w folder)).
Proof.
  intros Hno. rewrite Forall_forall. intros a Ha. apply list_elem_of_In in Ha.
  pose proof (clean_folder_actions w folder) as Hall.
  rewrite Forall_forall in Hall.
  pose proof (Hall a (proj2 (list_elem_of_In _ _) Ha)) as Hact.
  destruct a; try discriminate Hact; [|eauto].
  destruct Hno. apply clean_folder_warns. eauto.
Qed.

Lemma for_each_clean_quiet w folders :
  (∀ folder, In folder folders → ¬ deletion_fails w folder) →
  Forall (λ a, ∃ f, a = Unlink f) (trace (for_each folders (clean_folder w))).
Proof.
  induction folders as [|folder folders IH]; intros Hno; [constructor|].
  rewrite for_each_cons, trace_bind, clean_folder_continues.
  apply Forall_app. split.
  - apply clean_folder_quiet. apply Hno. left. reflexivity.
  - apply IH. intros f Hf. apply Hno. right. exact Hf.
Qed.

Ltac not_cleanup := cbv beta; reflexivity.

Lemma no_cleanup_event_without_failure w p o :
  (∀ folder, In folder temp_folders → ¬ deletion_fails w folder) →
  TraceAll (λ a, is_event_of "CLEANUP" a = false) _ (run_pipeline w p o).
Proof.
  intros Hno. apply pipeline_rule.
  - apply TraceAll_bind.
  - unfold validate. stage_cases; each_action not_cleanup.
  - intros ty. unfold normalize. stage_cases; each_action not_cleanup.
  - intros ap. unfold enhance. stage_cases; each_action not_cleanup.
  - unfold init_models. stage_cases; each_action not_cleanup.
  - intros tr [ap|]; unfold transcribe_stage, transcribe, language_rules;
      stage_cases; each_action not_cleanup.
  - intros su text. unfold chunk_stage. stage_cases; each_action not_cleanup.
  - intros su chunks. unfold cluster_stage.
    stage_cases; each_action not_cleanup.
  - intros su cl lang. unfold summarize_stage.
    stage_cases; each_action not_cleanup.
  - unfold complete_stage. stage_cases; each_action not_cleanup.
  - intros fs tr lang chunks cs. unfold TraceAll.
    rewrite trace_bind. apply Forall_app. split.
    + eapply Forall_impl; [apply (for_each_clean_quiet w _ Hno)|].
      intros a [f ->]. reflexivity.
    + destruct (outcome (cleanup w)); repeat constructor.
Qed.

(** C6, as the code has it. Every piece of stage work in a run, cleanup
    apart, has an audit event of its stage in the trace, and its outcome
    event is logged before any work of another stage. Cleanup is the
    exception: it logs an event, a WARNING named CLEANUP, exactly for a
    transient folder whose deletion raises, and when no deletion raises
    the run has no event named CLEANUP. *)
Theorem stages_are_audited_except_cleanup w p o :
  (∀ a s, In a (trace (run_pipeline w p o)) → stage_of a = Some s →
          s ≠ "CLEANUP" →
          ∃ e, In (Log e) (trace (run_pipeline w p o)) ∧ stage e = s)
  ∧ stages_recorded (trace (run_pipeline w p o)) = true
  ∧ (∀ folder,
       (∃ e, In (Log e) (trace (clean_folder w folder)))
       ↔ deletion_fails w folder)
  ∧ (∀ folder e, In (Log e) (trace (clean_folder w folder)) →
       stage e = "CLEANUP" ∧ severity e = "WARNING")
  ∧ ((∀ folder, In folder temp_folders → ¬ deletion_fails w folder) →
     existsb (is_event_of "CLEANUP") (trace (run_pipeline w p o)) = false).
Proof.
  split; [|split; [|split; [|split]]].
  - apply stages_announced_spec. apply run_pipeline_announced.
  - apply run_pipeline_recorded.
  - apply clean_folder_warns.
  - apply clean_folder_event.
  - intros Hno. pose proof (no_cleanup_event_without_failure w p o Hno) as Hall.
    unfold TraceAll in Hall. rewrite Forall_forall in Hall.
    destruct (existsb _ _) eqn:E; [|reflexivity].
    apply existsb_exists in E. destruct E as (a & Ha & Hev).
    apply list_elem_of_In in Ha. rewrite (Hall a Ha) in Hev. discriminate Hev.
Qed.

(** C6 as stated fails on cleanup. This run succeeds, its cleanup stage
    deletes [data/audio/talk.wav], and no event named CLEANUP is logged. *)
Lemma cleanup_can_run_without_event :
  let run := run_pipeline Sample.good "talk.mp4" default_options in
  In (Unlink "data/audio/talk.wav") (trace run)
  ∧ stage_of (Unlink "data/audio/talk.wav") = Some "CLEANUP"
  ∧ existsb (is_event_of "CLEANUP") (trace run) = false.
Proof.
  cbv zeta. repeat split; try reflexivity.
  vm_compute. repeat first [left; reflexivity | right].
Qed.

(** ** The theorems at concrete inputs *)

Lemma normalization_failure_is_asymmetric_witness :
  (path_exists Sample.no_codec "clip.mov" = true
   ∧ outcome (run_pipeline Sample.no_codec "clip.mov" default_options)
     = Return (error_dict "Video conversion failed"))
  ∧ (convert_audio_format Sample.no_codec "talk.mp3"
       "data/audio/talk_standardized.wav" = None
     ∧ In (WhisperTranscribe "talk.mp3" None)
          (trace (run_pipeline Sample.no_codec "talk.mp3" default_options))).
Proof.
  split; (split; [reflexivity|]).
  - apply (proj1 (normalization_failure_is_asymmetric
                    Sample.no_codec "clip.mov" default_options eq_refl));
      reflexivity.
  - apply (proj2 (proj2 (proj2 (proj2
             (normalization_failure_is_asymmetric
                Sample.no_codec "talk.mp3" default_options eq_refl)
             eq_refl eq_refl eq_refl)))
             (mkTranscriber Sample.whisper_ok (Some Sample.gemini_down))
             (Sample.summarizer_of 9) eq_refl eq_refl (or_introl eq_refl)).
Defined.



Lemma stages_are_audited_except_cleanup_witness :
  existsb (is_event_of "CLEANUP")
          (trace (run_pipeline Sample.good "talk.mp4" default_options))
  = false.
Proof.
  apply (stages_are_audited_except_cleanup
           Sample.good "talk.mp4" default_options).
  intros folder Hin [e He]. cbn in Hin.
  destruct Hin as [<-|[<-|[<-|[]]]]; vm_compute in He; discriminate He.
Defined.

Lemma enhancement_is_best_effort_witness :
  let o := mkOptions true false false "small" 2000 (Some "id") in
  enhance_audio Sample.no_codec (Some "talk.Mp3") false = None
  ∧ In (Enhance (Some "talk.Mp3") false)
       (trace (run_pipeline Sample.no_codec "talk.Mp3" o))
  ∧ outcome (run_pipeline Sample.no_codec "talk.Mp3" o)
    = outcome (run_pipeline Sample.no_codec "talk.Mp3" (without_denoise o)).
Proof.
  cbv zeta. split; [reflexivity|].
  destruct (enhancement_is_best_effort Sample.no_codec "talk.Mp3"
              (mkOptions true false false "small" 2000 (Some "id"))
              ".mp3" (Some "talk.Mp3") eq_refl eq_refl) as (Hiff & _ & Hfail).
  split.
  - apply (proj1 Hiff). reflexivity.
  - apply (Hfail eq_refl).
Defined.

Lemma returned_value_has_one_shape_witness :
  let d := error_dict "File not found: talk.mp4" in
  (error_shape d ∧ ¬ success_shape d) ∨ (success_shape d ∧ ¬ error_shape d).
Proof.
  apply (returned_value_has_one_shape
           Sample.empty_disk "talk.mp4" default_options).
  reflexivity.
Defined.


Lemma extension_case_is_ignored_witness :
  path_exists Sample.good "talk.MP4" = true
  ∧ outcome (validate Sample.good "talk.MP4" default_options)
    = Continue ".mp4"
  ∧ outcome (run_pipeline Sample.good "talk.MP4" default_options)
    = outcome (after_validation Sample.good "talk.MP4" default_options ".mp4").
Proof.
  split; [reflexivity|].
  destruct (extension_case_is_ignored Sample.good "talk.MP4" default_options
              ".mp4" eq_refl (or_introl eq_refl) eq_refl)
    as (Hv & _ & _ & Ho).
  split; [exact Hv | exact Ho].
Defined.

(** * More of the code *)

(** ** What each stage hands over *)

Lemma validate_continue_inv w p o ty :
  outcome (validate w p o) = Continue ty →
  path_exists w p = true
  ∧ ty = Py.lower (Path.suffix p)
  ∧ Py.str_in ty type_supported = true.
Proof.
  unfold validate.
  destruct (path_exists w p); run_simpl; [|discriminate].
  destruct (Py.str_in (Py.lower (Path.suffix p)) type_supported) eqn:E;
    run_simpl; [|discriminate].
  intros [= <-]. repeat split. exact E.
Qed.

Lemma normalize_continue_inv w p o ty ap :
  Py.str_in ty type_supported = true →
  outcome (normalize w p o ty) = Continue ap →
  ap = Some p ∨ ap = Some (video_output p) ∨ ap = Some (audio_output p).
Proof.
  rewrite supported_split. unfold normalize, video_output, audio_output.
  destruct (Py.str_in ty video_types) eqn:Ev.
  - intros _. run_simpl. destruct (convert_video_to_audio _ _ _);
      [intros [= <-]; auto | discriminate].
  - destruct (Py.str_in ty audio_types) eqn:Ea; [|discriminate].
    intros _. stage_cases; intros [= <-]; auto.
Qed.

Lemma enhance_continue_inv w o ap ap' :
  outcome (enhance w o ap) = Continue ap' →
  ap' = ap
  ∨ ∃ q, enhance_audio w ap (aggressive_denoise o) = Some q ∧ ap' = Some q.
Proof.
  unfold enhance. stage_cases; intros [= <-]; eauto.
Qed.

Lemma init_models_continue_inv w o tr su :
  outcome (init_models w o) = Continue (tr, su) →
  new_Transcriber w (transcriber_model o) = Py.Ok tr
  ∧ new_Summarizer w = Py.Ok su.
Proof.
  unfold init_models. stage_cases; try discriminate.
  intros [= <- <-]. split; reflexivity.
Qed.

Lemma chunk_stage_outcome o su transcript :
  outcome (chunk_stage o su transcript)
  = Continue (chunk_text su transcript (chunk_size o)).
Proof. reflexivity. Qed.

Lemma cluster_stage_outcome su chunks :
  outcome (cluster_stage su chunks) = Continue (clusters_of su chunks).
Proof.
  unfold cluster_stage, clusters_of.
  destruct (7 <? Z.of_nat (length chunks))%Z; reflexivity.
Qed.

Lemma summarize_stage_outcome su clusters lang :
  outcome (summarize_stage su clusters lang)
  = Continue (get_final_summary su clusters lang).
Proof.
  unfold summarize_stage. destruct (get_final_summary su clusters lang).
  reflexivity.
Qed.

(** ** The proof rule, with what flows from stage to stage *)

Lemma pipeline_rule_linked (Q : ∀ A, M A → Prop) w p o :
  BindRuleL Q →
  Q _ (validate w p o) →
  (∀ ty, outcome (validate w p o) = Continue ty →
         Q _ (normalize w p o ty)) →
  (∀ ty ap, outcome (validate w p o) = Continue ty →
            outcome (normalize w p o ty) = Continue ap →
            Q _ (enhance w o ap)) →
  Q _ (init_models w o) →
  (∀ ty ap ap' tr su,
     outcome (validate w p o) = Continue ty →
     outcome (normalize w p o ty) = Continue ap →
     outcome (enhance w o ap) = Continue ap' →
     outcome (init_models w o) = Continue (tr, su) →
     Q _ (transcribe_stage o tr ap')) →
  (∀ tr su ap' transcript lang,
     outcome (init_models w o) = Continue (tr, su) →
     outcome (transcribe_stage o tr ap') = Continue (transcript, lang) →
     Q _ (chunk_stage o su transcript)) →
  (∀ su chunks, Q _ (cluster_stage su chunks)) →
  (∀ su clusters lang, Q _ (summarize_stage su clusters lang)) →
  (∀ tr su transcript lang,
     outcome (init_models w o) = Continue (tr, su) →
     Q Empty_set
       (complete_stage ≫= λ _, cleanup w ≫= λ _,
        return_ (result_of su o transcript lang))) →
  Q _ (run_pipeline w p o).
Proof.
  intros Hb Hv Hn He Hi Ht Hch Hcl Hs Hfin.
  unfold run_pipeline, after_validation, after_enhancement.
  apply Hb; [exact Hv|]. intros ty Ety.
  apply Hb; [apply Hn; exact Ety|]. intros ap Eap.
  apply Hb; [apply (He ty); assumption|]. intros ap' Eap'.
  apply Hb; [exact Hi|]. intros [tr su] Ei.
  apply Hb; [apply (Ht ty ap ap' tr su); assumption|].
  intros [transcript lang] Et.
  apply Hb; [apply (Hch tr su ap' transcript lang); assumption|].
  intros chunks Ech.
  apply Hb; [apply Hcl|]. intros clusters Ecl.
  apply Hb; [apply Hs|]. intros [cs fs] Es.
  rewrite chunk_stage_outcome in Ech. injection Ech as <-.
  rewrite cluster_stage_outcome in Ecl. injection Ecl as <-.
  rewrite summarize_stage_outcome in Es. injection Es as Es.
  specialize (Hfin tr su transcript lang Ei).
  unfold result_of in Hfin. cbv zeta in Hfin. rewrite Es in Hfin.
  exact Hfin.
Qed.

(** ** [Transcriber.transcribe] *)


(** X2. An empty [language] string counts as no language: the speech model
    is called without the option, exactly as for [None]; any other string
    is passed on as it is. *)
Theorem empty_language_means_auto_detection self file :
  transcribe self file (Some "") = transcribe self file None
  ∧ ∀ l, l ≠ "" →
      trace (transcribe self file (Some l))
      = [WhisperTranscribe file (Some l)].
Proof.
  split; [reflexivity|].
  intros l Hl. unfold transcribe. cbv zeta. run_simpl.
  destruct l; [contradiction|].
  destruct (model self file _); reflexivity.
Qed.

(** ** [Transcriber.language_rules] *)

Lemma lstrip_all_space s : all_space s = true → Py.lstrip s = "".
Proof.
  unfold all_space. induction s as [|c s IH]; [reflexivity|].
  cbn. intros H. apply andb_true_iff in H. destruct H as [-> H]. auto.
Qed.

Lemma lstrip_no_lead s : starts_with_space (Py.lstrip s) = false.
Proof.
  induction s as [|c s IH]; [reflexivity|].
  cbn. destruct (Py.isspace c) eqn:E; [exact IH|]. cbn. exact E.
Qed.

Lemma rstrip_no_trail s : ends_with_space (Py.rstrip s) = false.
Proof.
  induction s as [|c s IH]; [reflexivity|].
  cbn. destruct (Py.rstrip s) as [|c' r] eqn:E.
  - destruct (Py.isspace c) eqn:Ec; [reflexivity|]. cbn. exact Ec.
  - exact IH.
Qed.

Lemma rstrip_keeps_head s :
  starts_with_space s = false → starts_with_space (Py.rstrip s) = false.
Proof.
  destruct s as [|c s]; [reflexivity|].
  cbn. intros Hc. destruct (Py.rstrip s); [|exact Hc].
  rewrite Hc. exact Hc.
Qed.

Lemma strip_trimmed s :
  starts_with_space (Py.strip s) = false
  ∧ ends_with_space (Py.strip s) = false.
Proof.
  unfold Py.strip. split.
  - apply rstrip_keeps_head, lstrip_no_lead.
  - apply rstrip_no_trail.
Qed.

(** X3. When the language model answers, [language_rules] hands back the
    answer stripped: it neither begins nor ends with white space, and an
    answer of white space only gives the empty text. *)
Theorem correction_is_the_stripped_answer self transcript language g r text :
  gemini_model self = Some g →
  g (correction_prompt transcript language) = Py.Ok r →
  resp_text r = Py.Ok text →
  outcome (language_rules self transcript language) = Continue (Py.strip text)
  ∧ starts_with_space (Py.strip text) = false
  ∧ ends_with_space (Py.strip text) = false
  ∧ (all_space text = true →
     outcome (language_rules self transcript language) = Continue "").
Proof.
  intros Hg Hr Ht.
  assert (H : outcome (language_rules self transcript language)
              = Continue (Py.strip text)).
  { unfold language_rules. cbv zeta. rewrite Hg. run_simpl. rewrite Hr.
    run_simpl. rewrite Ht. reflexivity. }
  destruct (strip_trimmed text) as [H1 H2].
  repeat split; try assumption.
  intros Hs. rewrite H. unfold Py.strip. rewrite (lstrip_all_space _ Hs).
  reflexivity.
Qed.

(** X4. The emptiness test of line 105 looks at the raw text only. When
    the raw text is not empty and the language model answers white space,
    the transcription stage succeeds with an empty transcript: it logs
    CORRECTION SUCCESS and hands the empty text to chunking. *)
Theorem empty_correction_is_not_an_error o tr audio r g resp text :
  model tr audio (language_given (language o)) = Py.Ok r →
  Py.truthy (wr_text r) = true →
  gemini_model tr = Some g →
  g (correction_prompt (wr_text r) (wr_language r)) = Py.Ok resp →
  resp_text resp = Py.Ok text →
  all_space text = true →
  outcome (transcribe_stage o tr (Some audio)) = Continue ("", wr_language r)
  ∧ In correction_done (trace (transcribe_stage o tr (Some audio))).
Proof.
  intros Hm Htr Hg Hr Ht Hs.
  unfold transcribe_stage, transcribe, language_rules, correction_done.
  cbv zeta. run_simpl. rewrite Hm. run_simpl. rewrite Htr. run_simpl.
  rewrite Hg. run_simpl. rewrite Hr. run_simpl. rewrite Ht. run_simpl.
  unfold Py.strip. rewrite (lstrip_all_space _ Hs). split; [reflexivity|].
  in_list.
Qed.

(** ** Validation *)

(** X5. An existing input whose lowercased suffix is not supported (no
    suffix at all included) is rejected with
    [{"error": "Unsupported file type: <suffix>"}]; the run logs its two
    events and does nothing else. *)
Theorem unsupported_type_is_rejected w p o :
  path_exists w p = true →
  Py.str_in (Py.lower (Path.suffix p)) type_supported = false →
  outcome (run_pipeline w p o)
  = Return (error_dict
              ("Unsupported file type: " +:+ Py.lower (Path.suffix p)))
  ∧ In (Log (mkEvent "FILE_VALIDATION" "ERROR"
               ("Unsupported file type: " +:+ Py.lower (Path.suffix p)) []))
       (trace (run_pipeline w p o))
  ∧ length (trace (run_pipeline w p o)) = 2
  ∧ Forall (λ a, ∃ e, a = Log e) (trace (run_pipeline w p o)).
Proof.
  intros He Hs. unfold run_pipeline, validate. rewrite He, Hs. run_simpl.
  repeat split; [in_list|]. repeat constructor; eauto.
Qed.

Example no_suffix_is_unsupported :
  outcome (run_pipeline Sample.good "notes/README" default_options)
  = Return (error_dict "Unsupported file type: ").
Proof. reflexivity. Qed.

(** ** What a run returns, and what it raises *)

Lemma known_error_shape p d : known_error p d → error_shape d.
Proof.
  intros [-> | [-> | [-> | [[e ->] | ->]]]]; apply error_dict_shape.
Qed.

Lemma result_of_shape su o transcript lang :
  success_shape (result_of su o transcript lang).
Proof. unfold result_of. cbv zeta. apply success_dict_shape. Qed.

Lemma ReturnsKnown_bind w p o : BindRuleL (ReturnsKnown w p o).
Proof.
  intros A B m f Hm Hf d. rewrite outcome_bind.
  destruct (outcome m) as [a|d'|e] eqn:E.
  - apply (Hf a eq_refl).
  - intros [= <-]. apply Hm. exact E.
  - discriminate.
Qed.

Ltac known_return :=
  unfold ReturnsKnown, known_error; intros d; stage_cases;
  first [ discriminate | intros [= <-]; left; eauto 10 ].

Lemma run_pipeline_returns_known w p o :
  ReturnsKnown w p o _ (run_pipeline w p o).
Proof.
  apply pipeline_rule_linked.
  - apply ReturnsKnown_bind.
  - unfold validate. known_return.
  - intros ty _. unfold normalize. known_return.
  - intros ty ap _ _. unfold enhance. known_return.
  - unfold init_models. known_return.
  - intros ty ap [ap'|] tr su _ _ _ _;
      unfold transcribe_stage, transcribe, language_rules; known_return.
  - intros tr su ap' transcript lang _ _. unfold chunk_stage. known_return.
  - intros su chunks. unfold cluster_stage. known_return.
  - intros su cl lang. unfold summarize_stage. known_return.
  - intros tr su transcript lang Ei d.
    destruct (init_models_continue_inv w o tr su Ei) as [_ Hsu].
    rewrite outcome_bind. unfold complete_stage. run_simpl.
    destruct (cleanup_then_return w (result_of su o transcript lang))
      as (t & -> & _).
    intros [= <-]. right. eauto.
Qed.

(** X6. An error dict returned by [run_pipeline] on input [p] carries one
    of five messages and no other: file not found (with the path),
    unsupported file type (with the lowercased suffix), video conversion
    failed, model initialisation failed (with the text of the exception),
    transcription failed. *)
Theorem returned_errors_are_the_five w p o d :
  outcome (run_pipeline w p o) = Return d →
  error_shape d →
  known_error p d.
Proof.
  intros Hd Hshape.
  destruct (run_pipeline_returns_known w p o d Hd)
    as [H | (su & transcript & lang & _ & ->)]; [exact H|].
  destruct (shapes_exclusive _ Hshape (result_of_shape su o transcript lang)).
Qed.

(** X7. A success dict is consistent with itself: its chunks are what the
    run's summarizer cuts from the transcript it returns with the
    configured chunk size, clustered when they are more than 7 and put in
    cluster 0 otherwise, and its summary and cluster summaries are the
    summarizer's answer for these clusters and the returned language. *)
Theorem success_dict_is_consistent w p o d :
  outcome (run_pipeline w p o) = Return d →
  success_shape d →
  ∃ su transcript lang,
    new_Summarizer w = Py.Ok su
    ∧ d = result_of su o transcript lang
    ∧ d !! "transcript" = Some (Py.VStr transcript)
    ∧ d !! "detected_language" = Some (Py.VStr lang)
    ∧ d !! "chunks"
      = Some (Py.VList (Py.VStr <$> chunk_text su transcript (chunk_size o))).
Proof.
  intros Hd Hshape.
  destruct (run_pipeline_returns_known w p o d Hd)
    as [H | (su & transcript & lang & Hsu & ->)].
  - destruct (shapes_exclusive d (known_error_shape p d H) Hshape).
  - exists su, transcript, lang. repeat split; try assumption;
      unfold result_of, success_dict; cbv zeta; simplify_map_eq; reflexivity.
Qed.






(** ** When the log is saved *)

Lemma saves_app t1 t2 : saves (t1 ++ t2) = saves t1 + saves t2.
Proof. unfold saves. rewrite List.filter_app, length_app. reflexivity. Qed.

Lemma cleanup_never_saves t :
  Forall (λ a, cleanup_action a = true) t → saves t = 0.
Proof.
  induction 1 as [|a t Ha _ IH]; [reflexivity|].
  change (a :: t) with ([a] ++ t). rewrite saves_app, IH.
  destruct a; try discriminate Ha; reflexivity.
Qed.

Lemma saved_once_saves t : saved_once t → saves t = 1.
Proof.
  intros (before & after & -> & Hb & Ha).
  change (Save :: after) with ([Save] ++ after).
  rewrite !saves_app, Hb, (cleanup_never_saves _ Ha). reflexivity.
Qed.

Lemma SavesOnSuccess_bind : BindRuleL SavesOnSuccess.
Proof.
  intros A B m f Hm Hf. unfold SavesOnSuccess in *.
  rewrite trace_bind, outcome_bind.
  destruct Hm as [[H0 Herr] | [Hsaved (d & Hd & Hs)]].
  - destruct (outcome m) as [a|d|e] eqn:E.
    + destruct (Hf a eq_refl) as [[H0' Herr'] | [Hsaved' Hret]].
      * left. split; [rewrite saves_app, H0, H0'; reflexivity | exact Herr'].
      * right. split; [|exact Hret].
        destruct Hsaved' as (before & after & -> & Hb & Ha).
        exists (trace m ++ before), after. rewrite <- app_assoc.
        split; [reflexivity|]. split; [|exact Ha].
        rewrite saves_app, H0, Hb. reflexivity.
    + left. rewrite app_nil_r. split; [exact H0|].
      intros d' [= <-]. apply Herr. reflexivity.
    + left. rewrite app_nil_r. split; [exact H0 | discriminate].
  - right. rewrite Hd, app_nil_r. split; [exact Hsaved|]. eauto.
Qed.

Ltac never_saves :=
  unfold SavesOnSuccess; stage_cases; left;
  (split; [reflexivity
          | intros ?;
            first [discriminate | intros [= <-]; apply error_dict_shape]]).

Lemma run_pipeline_saves_on_success w p o :
  SavesOnSuccess _ (run_pipeline w p o).
Proof.
  apply pipeline_rule_linked.
  - exact SavesOnSuccess_bind.
  - unfold validate. never_saves.
  - intros ty _. unfold normalize. never_saves.
  - intros ty ap _ _. unfold enhance. never_saves.
  - unfold init_models. never_saves.
  - intros ty ap [ap'|] tr su _ _ _ _;
      unfold transcribe_stage, transcribe, language_rules; never_saves.
  - intros tr su ap' transcript lang _ _. unfold chunk_stage. never_saves.
  - intros su chunks. unfold cluster_stage. never_saves.
  - intros su cl lang. unfold summarize_stage. never_saves.
  - intros tr su transcript lang _. right.
    rewrite trace_bind, outcome_bind. unfold complete_stage. run_simpl.
    destruct (cleanup_then_return w (result_of su o transcript lang))
      as (t & -> & Hall).
    split.
    + eexists [_], t. split; [reflexivity|]. split; [reflexivity | exact Hall].
    + eexists. split; [reflexivity | apply result_of_shape].
Qed.

(** X9. [logger.save()] is called exactly once in a run that returns the
    success dict, and then everything the run does after it is cleanup
    (so a CLEANUP warning is always logged after the log was saved); it is
    not called at all in a run that returns an error dict or raises. *)
Theorem save_goes_with_success w p o :
  (∀ d, outcome (run_pipeline w p o) = Return d → success_shape d →
        saved_once (trace (run_pipeline w p o))
        ∧ saves (trace (run_pipeline w p o)) = 1)
  ∧ (∀ d, outcome (run_pipeline w p o) = Return d → error_shape d →
          saves (trace (run_pipeline w p o)) = 0)
  ∧ (∀ e, outcome (run_pipeline w p o) = Raise e →
          saves (trace (run_pipeline w p o)) = 0).
Proof.
  destruct (run_pipeline_saves_on_success w p o)
    as [[H0 Herr] | [Hsaved (d0 & Hd0 & Hs0)]].
  - split; [|split].
    + intros d Hd Hs. destruct (shapes_exclusive d (Herr d Hd) Hs).
    + intros d _ _. exact H0.
    + intros e _. exact H0.
  - split; [|split].
    + intros d _ _. split; [exact Hsaved | apply saved_once_saves, Hsaved].
    + intros d Hd He. rewrite Hd0 in Hd. injection Hd as <-.
      destruct (shapes_exclusive d0 He Hs0).
    + intros e He. rewrite Hd0 in He. discriminate He.
Qed.

(** ** Conversion *)

Lemma TraceAll_bindL P : BindRuleL (TraceAll P).
Proof.
  intros A B m f Hm Hf. unfold TraceAll in *. rewrite trace_bind.
  apply Forall_app. split; [exact Hm|].
  destruct (outcome m) as [a| |]; [apply (Hf a eq_refl) | constructor..].
Qed.

(** A trace invariant that only one stage can break: the other stages and
    cleanup are handled here. *)
Lemma run_trace_all (P : Action → Prop) w p o :
  (∀ a, cleanup_action a = true → P a) →
  (∀ e, P (Log e)) → P Save →
  Forall P (trace (validate w p o)) →
  (∀ ty, outcome (validate w p o) = Continue ty →
         Forall P (trace (normalize w p o ty))) →
  (∀ ty ap, outcome (validate w p o) = Continue ty →
            outcome (normalize w p o ty) = Continue ap →
            Forall P (trace (enhance w o ap))) →
  Forall P (trace (init_models w o)) →
  (∀ ty ap ap' tr su,
     outcome (validate w p o) = Continue ty →
     outcome (normalize w p o ty) = Continue ap →
     outcome (enhance w o ap) = Continue ap' →
     outcome (init_models w o) = Continue (tr, su) →
     Forall P (trace (transcribe_stage o tr ap'))) →
  (∀ text, P (ChunkText text (chunk_size o))) →
  (∀ chunks, (8 ≤ length chunks)%nat → P (ClusterChunks chunks)) →
  (∀ cl lang, P (GetFinalSummary cl lang)) →
  Forall P (trace (run_pipeline w p o)).
Proof.
  intros Hclean Hlog Hsave Hv Hn He Hi Ht Hch Hcl Hs.
  apply (pipeline_rule_linked (TraceAll P)); unfold TraceAll.
  - apply TraceAll_bindL.
  - exact Hv.
  - exact Hn.
  - exact He.
  - exact Hi.
  - exact Ht.
  - intros tr su ap' transcript lang _ _. unfold chunk_stage. run_simpl.
    repeat (apply Forall_cons; split; [auto|]). apply Forall_nil. exact I.
  - intros su chunks. unfold cluster_stage.
    destruct (7 <? Z.of_nat (length chunks))%Z eqn:E; run_simpl.
    + apply Z.ltb_lt in E.
      repeat (apply Forall_cons; split; [first [apply Hlog | apply Hcl; lia]|]).
      apply Forall_nil. exact I.
    + repeat (apply Forall_cons; split; [apply Hlog|]). apply Forall_nil.
      exact I.
  - intros su cl lang. unfold summarize_stage.
    destruct (get_final_summary su cl lang). run_simpl.
    repeat (apply Forall_cons; split; [auto|]). apply Forall_nil. exact I.
  - intros tr su transcript lang _. rewrite trace_bind.
    unfold complete_stage. run_simpl.
    destruct (cleanup_then_return w (result_of su o transcript lang))
      as (t & -> & Hall).
    repeat (apply Forall_cons; split; [auto|]).
    cbn. eapply Forall_impl; [exact Hall | exact Hclean].
Qed.

(** What holds of a converter call or a directory creation in a run on
    [p]. *)
Lemma conversion_calls w p o :
  Forall (λ a,
      (∀ src dst, a = ConvertVideo src dst →
         src = p ∧ dst = video_output p
         ∧ Py.str_in (Py.lower (Path.suffix p)) video_types = true)
      ∧ (∀ src dst, a = ConvertAudio src dst →
           src = p ∧ dst = audio_output p
           ∧ Py.str_in (Py.lower (Path.suffix p)) audio_types = true
           ∧ negb (String.eqb (Py.lower (Path.suffix p)) ".wav")
             || force_wav o = true)
      ∧ (∀ dir, a = Mkdir dir →
           dir = "data/audio" ∧ converts o (Py.lower (Path.suffix p)) = true))
    (trace (run_pipeline w p o)).
Proof.
  apply run_trace_all.
  - intros [] Ha; try discriminate Ha; repeat split; intros; discriminate.
  - repeat split; intros; discriminate.
  - repeat split; intros; discriminate.
  - unfold validate.
    stage_cases; each_action ltac:(repeat split; intros; discriminate).
  - intros ty Hv.
    destruct (validate_continue_inv w p o ty Hv) as (_ & -> & _).
    unfold normalize, video_output, audio_output, converts.
    stage_cases;
      each_action ltac:(
        split; [|split]; intros; try discriminate;
        repeat match goal with
               | H : ConvertVideo _ _ = ConvertVideo _ _ |- _ =>
                   injection H as <- <-
               | H : ConvertAudio _ _ = ConvertAudio _ _ |- _ =>
                   injection H as <- <-
               | H : Mkdir _ = Mkdir _ |- _ => injection H as <-
               end;
        repeat split; try assumption;
        repeat match goal with
               | H : ?b = _ |- context [?b] => rewrite H
               end; reflexivity).
  - intros ty ap _ _. unfold enhance.
    stage_cases; each_action ltac:(repeat split; intros; discriminate).
  - unfold init_models.
    stage_cases; each_action ltac:(repeat split; intros; discriminate).
  - intros ty ap [ap'|] tr su _ _ _ _;
      unfold transcribe_stage, transcribe, language_rules;
      stage_cases; each_action ltac:(repeat split; intros; discriminate).
  - repeat split; intros; discriminate.
  - repeat split; intros; discriminate.
  - repeat split; intros; discriminate.
Qed.

(** X10. A converter is only ever called on the input file itself, and
    the destination is made from the input's stem under [data/audio]:
    [<stem>.wav] for a video, [<stem>_standardized.wav] for an audio file.
    The video converter is called for video types only, the audio
    converter for audio types only. *)
Theorem converters_work_on_the_input w p o :
  (∀ src dst, In (ConvertVideo src dst) (trace (run_pipeline w p o)) →
     src = p ∧ dst = Path.join "data/audio" (Path.stem p +:+ ".wav")
     ∧ In (Py.lower (Path.suffix p)) video_types)
  ∧ (∀ src dst, In (ConvertAudio src dst) (trace (run_pipeline w p o)) →
       src = p
       ∧ dst = Path.join "data/audio" (Path.stem p +:+ "_standardized.wav")
       ∧ In (Py.lower (Path.suffix p)) audio_types).
Proof.
  pose proof (conversion_calls w p o) as Hall. rewrite Forall_forall in Hall.
  split; intros src dst Hin; apply list_elem_of_In in Hin;
    destruct (Hall _ Hin) as (Hv & Ha & _).
  - destruct (Hv src dst eq_refl) as (-> & -> & H).
    repeat split. apply str_in_In. exact H.
  - destruct (Ha src dst eq_refl) as (-> & -> & H & _).
    repeat split. apply str_in_In. exact H.
Qed.

(** X11. A [.wav] input (in any letter case) with [force_wav] unset is used
    as it is: the run calls no converter and creates no directory. *)
Theorem wav_is_used_directly w p o :
  Py.lower (Path.suffix p) = ".wav" →
  force_wav o = false →
  forallb no_conversion (trace (run_pipeline w p o)) = true.
Proof.
  intros Hwav Hforce. apply forallb_forall. intros a Hin.
  pose proof (conversion_calls w p o) as Hall. rewrite Forall_forall in Hall.
  apply list_elem_of_In in Hin. destruct (Hall _ Hin) as (Hv & Ha & Hm).
  rewrite Hwav in Hv, Ha, Hm.
  destruct a; try reflexivity; exfalso.
  - destruct (Hm _ eq_refl) as [_ H]. unfold converts in H.
    rewrite Hforce in H. discriminate H.
  - destruct (Hv _ _ eq_refl) as (_ & _ & H). discriminate H.
  - destruct (Ha _ _ eq_refl) as (_ & _ & _ & H).
    rewrite Hforce in H. discriminate H.
Qed.

(** ** What the speech model is given *)

Lemma speech_model_input w p o :
  Forall (λ a, ∀ f l, a = WhisperTranscribe f l →
      l = language_given (language o)
      ∧ (f = p ∨ f = video_output p ∨ f = audio_output p
         ∨ ∃ ap, enhance_audio w ap (aggressive_denoise o) = Some f))
    (trace (run_pipeline w p o)).
Proof.
  apply run_trace_all.
  - intros [] Ha; try discriminate Ha; intros; discriminate.
  - intros; discriminate.
  - intros; discriminate.
  - unfold validate. stage_cases; each_action no_such_call.
  - intros ty _. unfold normalize. stage_cases; each_action no_such_call.
  - intros ty ap _ _. unfold enhance. stage_cases; each_action no_such_call.
  - unfold init_models. stage_cases; each_action no_such_call.
  - intros ty ap ap' tr su Hv Hn He _.
    destruct (validate_continue_inv w p o ty Hv) as (_ & _ & Hsup).
    assert (Hprov : ∃ audio, ap' = Some audio
              ∧ (audio = p ∨ audio = video_output p ∨ audio = audio_output p
                 ∨ ∃ ap0, enhance_audio w ap0 (aggressive_denoise o)
                          = Some audio)).
    { destruct (enhance_continue_inv w o ap ap' He) as [->|(q & Hq & ->)];
        [|eauto 10].
      destruct (normalize_continue_inv w p o ty ap Hsup Hn)
        as [->|[->| ->]]; eauto 10. }
    destruct Hprov as (audio & -> & Hprov).
    unfold transcribe_stage, transcribe, language_rules.
    stage_cases;
      each_action ltac:(first [no_such_call
                              | intros f l [= <- <-]; split;
                                [reflexivity | exact Hprov]]).
  - intros; discriminate.
  - intros; discriminate.
  - intros; discriminate.
Qed.

(** X12. The file handed to the speech model is always the input itself,
    one of the two destinations under [data/audio] that normalisation
    computes from the input's stem, or a path the enhancer answered: the
    path a converter answers is never used. The language option is the
    caller's [language] when it is a non-empty string and absent
    otherwise. *)
Theorem speech_model_gets_a_known_file w p o f l :
  In (WhisperTranscribe f l) (trace (run_pipeline w p o)) →
  l = language_given (language o)
  ∧ (f = p
     ∨ f = Path.join "data/audio" (Path.stem p +:+ ".wav")
     ∨ f = Path.join "data/audio" (Path.stem p +:+ "_standardized.wav")
     ∨ ∃ ap, enhance_audio w ap (aggressive_denoise o) = Some f).
Proof.
  intros Hin. pose proof (speech_model_input w p o) as Hall.
  rewrite Forall_forall in Hall. apply list_elem_of_In in Hin.
  exact (Hall _ Hin f l eq_refl).
Qed.



(** ** Model initialisation *)

Lemma enhance_continues w o ap : ∃ ap', outcome (enhance w o ap) = Continue ap'.
Proof. unfold enhance. stage_cases; eauto. Qed.

Lemma summarizer_after_transcriber w p o :
  Forall (λ a, a = NewSummarizer →
               ∃ tr, new_Transcriber w (transcriber_model o) = Py.Ok tr)
    (trace (run_pipeline w p o)).
Proof.
  apply run_trace_all.
  - intros [] Ha; try discriminate Ha; intros; discriminate.
  - intros; discriminate.
  - intros; discriminate.
  - unfold validate. stage_cases; each_action no_such_call.
  - intros ty _. unfold normalize. stage_cases; each_action no_such_call.
  - intros ty ap _ _. unfold enhance. stage_cases; each_action no_such_call.
  - unfold init_models.
    stage_cases; each_action ltac:(first [no_such_call | intros _; eauto]).
  - intros ty ap [ap'|] tr su _ _ _ _;
      unfold transcribe_stage, transcribe, language_rules;
      stage_cases; each_action no_such_call.
  - intros; discriminate.
  - intros; discriminate.
  - intros; discriminate.
Qed.

(** X14. Model initialisation is fatal. For a run that reached the gate,
    an exception of either constructor ends the run with
    [{"error": "Model initialization failed: <text of the exception>"}] and
    nothing of the transcription stage happens. The summarizer is never
    constructed unless the transcriber was constructed first. *)
Theorem model_init_failure_is_fatal w p o ty ap e :
  outcome (validate w p o) = Continue ty →
  outcome (normalize w p o ty) = Continue ap →
  new_Transcriber w (transcriber_model o) = Py.Raises e
  ∨ (∃ tr, new_Transcriber w (transcriber_model o) = Py.Ok tr)
    ∧ new_Summarizer w = Py.Raises e →
  outcome (run_pipeline w p o)
  = Return (error_dict ("Model initialization failed: " +:+ Py.exn_msg e))
  ∧ Forall no_transcription (trace (run_pipeline w p o))
  ∧ (new_Transcriber w (transcriber_model o) = Py.Raises e →
     ¬ In NewSummarizer (trace (run_pipeline w p o))).
Proof.
  intros Hv Hn Hfail.
  destruct (run_through_gate w p o ty ap Hv Hn) as [Ht Ho].
  destruct (enhance_continues w o ap) as [ap' He].
  assert (Hi : outcome (init_models w o)
               = Return (error_dict ("Model initialization failed: "
                                     +:+ Py.exn_msg e))).
  { unfold init_models.
    destruct Hfail as [H | [[tr H] H']]; rewrite H; run_simpl;
      [|rewrite H']; reflexivity. }
  split; [|split].
  - rewrite Ho, (outcome_bind_continue _ _ _ He). unfold after_enhancement.
    apply (trace_bind_return _ _ _ Hi).
  - rewrite Ht, (trace_bind_continue _ _ _ He). unfold after_enhancement.
    rewrite (proj1 (trace_bind_return _ _ _ Hi)).
    apply Forall_app; split;
      [|apply Forall_app; split; [|apply Forall_app; split]].
    + unfold validate. stage_cases; each_action quiet.
    + unfold normalize. stage_cases; each_action quiet.
    + unfold enhance. stage_cases; each_action quiet.
    + unfold init_models. stage_cases; each_action quiet.
  - intros Hraise Hin.
    pose proof (summarizer_after_transcriber w p o) as Hall.
    rewrite Forall_forall in Hall. apply list_elem_of_In in Hin.
    destruct (Hall _ Hin eq_refl) as [tr Htr].
    rewrite Hraise in Htr. discriminate Htr.
Qed.

(** ** Cleanup *)

(** X15. Cleanup never ends the run and never raises, whatever the
    filesystem does, and it attempts the three transient folders one after
    the other in the order [data/audio/enhanced], [data/temp],
    [data/audio]: a failure in one folder does not keep it from the
    next. *)
Theorem cleanup_attempts_every_folder w :
  cleanup w
  = (trace (clean_folder w "data/audio/enhanced")
       ++ trace (clean_folder w "data/temp")
       ++ trace (clean_folder w "data/audio"),
     Continue tt).
Proof.
  unfold cleanup, temp_folders. rewrite !for_each_cons.
  unfold mbind, M_bind.
  change ((clean_folder w ?f).2) with (outcome (clean_folder w f)).
  rewrite !clean_folder_continues. cbn [for_each mret M_ret fst snd].
  rewrite !app_nil_r. reflexivity.
Qed.

Lemma for_each_unlink_files w files f :
  In (Unlink f) (trace (for_each files (unlink_if_file w))) →
  In f files ∧ is_file w f = true.
Proof.
  induction files as [|g files IH]; [intros []|].
  rewrite for_each_cons, trace_bind. intros Hin. apply in_app_or in Hin.
  destruct Hin as [Hin|Hin].
  - unfold unlink_if_file in Hin. destruct (is_file w g) eqn:E; [|destruct Hin].
    cbn in Hin. destruct Hin as [[= ->]|[]]. split; [left; reflexivity | exact E].
  - destruct (outcome (unlink_if_file w g)); try destruct Hin.
    destruct (IH Hin) as [H1 H2]. split; [right; exact H1 | exact H2].
Qed.

Lemma walk_folder_unlinks_files w folder f :
  In (Unlink f) (trace (walk_folder w folder)) →
  folder_exists w folder = true
  ∧ In f (rglob w folder).1
  ∧ is_file w f = true.
Proof.
  unfold walk_folder. intros Hin.
  destruct (folder_exists w folder); [|destruct Hin].
  destruct (rglob w folder) as [files stop]. cbv beta iota zeta in Hin.
  rewrite trace_bind in Hin. apply in_app_or in Hin.
  destruct Hin as [Hin|Hin].
  - destruct (for_each_unlink_files w files f Hin). auto.
  - destruct (outcome (for_each files (unlink_if_file w)));
      try destruct Hin.
    destruct stop; destruct Hin.
Qed.

Lemma clean_folder_unlinks w folder f :
  In (Unlink f) (trace (clean_folder w folder)) →
  folder_exists w folder = true
  ∧ In f (rglob w folder).1
  ∧ is_file w f = true.
Proof.
  unfold clean_folder, try_except. cbn [trace fst]. intros Hin.
  apply in_app_or in Hin. destruct Hin as [Hin|Hin].
  - apply walk_folder_unlinks_files. exact Hin.
  - destruct (walk_folder w folder).2; cbn in Hin;
      [destruct Hin | destruct Hin | destruct Hin as [Hin|[]]; discriminate Hin].
Qed.

Lemma run_unlinks_in_cleanup w p o :
  Forall (λ a, ∀ f, a = Unlink f → In (Unlink f) (trace (cleanup w)))
    (trace (run_pipeline w p o)).
Proof.
  apply (pipeline_rule (TraceAll _)).
  - apply TraceAll_bind.
  - unfold validate. stage_cases; each_action no_such_call.
  - intros ty. unfold normalize. stage_cases; each_action no_such_call.
  - intros ap. unfold enhance. stage_cases; each_action no_such_call.
  - unfold init_models. stage_cases; each_action no_such_call.
  - intros tr [ap|]; unfold transcribe_stage, transcribe, language_rules;
      stage_cases; each_action no_such_call.
  - intros su text. unfold chunk_stage. stage_cases; each_action no_such_call.
  - intros su chunks. unfold cluster_stage.
    stage_cases; each_action no_such_call.
  - intros su cl lang. unfold summarize_stage.
    stage_cases; each_action no_such_call.
  - unfold complete_stage. stage_cases; each_action no_such_call.
  - intros fs tr lang chunks cs. unfold TraceAll. rewrite trace_bind.
    apply Forall_app. split.
    + rewrite Forall_forall. intros a Ha f ->.
      apply list_elem_of_In. exact Ha.
    + destruct (outcome (cleanup w)); repeat constructor.
Qed.

Lemma for_each_trace_inv {A} (xs : list A) body a :
  In a (trace (for_each xs body)) → ∃ x, In x xs ∧ In a (trace (body x)).
Proof.
  induction xs as [|x xs IH]; [intros []|].
  rewrite for_each_cons, trace_bind. intros Hin. apply in_app_or in Hin.
  destruct Hin as [Hin|Hin].
  - exists x. split; [left; reflexivity | exact Hin].
  - destruct (outcome (body x)); try destruct Hin.
    destruct (IH Hin) as (y & Hy & Ha). exists y. split; [right|]; assumption.
Qed.

(** X16. The only files a run deletes are regular files that [rglob] lists
    under one of the three transient folders, and only when that folder
    exists: directories, and files elsewhere, are never unlinked. *)
Theorem only_transient_files_are_deleted w p o f :
  In (Unlink f) (trace (run_pipeline w p o)) →
  is_file w f = true
  ∧ ∃ folder,
      In folder temp_folders
      ∧ folder_exists w folder = true
      ∧ In f (rglob w folder).1.
Proof.
  intros Hin. pose proof (run_unlinks_in_cleanup w p o) as Hall.
  rewrite Forall_forall in Hall. apply list_elem_of_In in Hin.
  specialize (Hall _ Hin f eq_refl). unfold cleanup in Hall.
  destruct (for_each_trace_inv _ _ _ Hall) as (folder & Hfolder & Hun).
  destruct (clean_folder_unlinks w folder f Hun) as (He & Hl & Hf).
  split; [exact Hf|]. exists folder. auto.
Qed.

Lemma unlink_if_file_ok w g :
  (is_file w g = true → unlink w g = Py.Ok tt) →
  unlink_if_file w g
  = (if is_file w g then [Unlink g] else [], Continue tt).
Proof.
  intros H. unfold unlink_if_file.
  destruct (is_file w g); [rewrite (H eq_refl)|]; reflexivity.
Qed.

Lemma for_each_until_failure w before f after e :
  (∀ g, In g before → is_file w g = true → unlink w g = Py.Ok tt) →
  is_file w f = true →
  unlink w f = Py.Raises e →
  for_each (before ++ f :: after) (unlink_if_file w)
  = (map Unlink (List.filter (is_file w) before) ++ [Unlink f], Raise e).
Proof.
  intros Hok Hf He.
  assert (Hfail : unlink_if_file w f = ([Unlink f], Raise e))
    by (unfold unlink_if_file; rewrite Hf, He; reflexivity).
  induction before as [|g before IH]; cbn [app].
  - rewrite for_each_cons, Hfail. reflexivity.
  - rewrite for_each_cons.
    rewrite (unlink_if_file_ok w g (Hok g (or_introl eq_refl))).
    rewrite IH; [|intros h Hh; apply Hok; right; exact Hh].
    cbn [List.filter]. destruct (is_file w g); reflexivity.
Qed.

Lemma for_each_all_ok w files :
  (∀ g, In g files → is_file w g = true → unlink w g = Py.Ok tt) →
  for_each files (unlink_if_file w)
  = (map Unlink (List.filter (is_file w) files), Continue tt).
Proof.
  intros Hok. induction files as [|g files IH]; [reflexivity|].
  rewrite for_each_cons.
  rewrite (unlink_if_file_ok w g (Hok g (or_introl eq_refl))).
  rewrite IH; [|intros h Hh; apply Hok; right; exact Hh].
  cbn [List.filter]. destruct (is_file w g); reflexivity.
Qed.

(** X17. Inside one folder the first [unlink] that raises ends the walk:
    the regular files listed before it are deleted, the files listed after
    it are left in place, and one CLEANUP warning with the text of the
    exception is logged. *)
Theorem first_failed_unlink_ends_the_folder w folder before f after stop e :
  folder_exists w folder = true →
  rglob w folder = (before ++ f :: after, stop) →
  (∀ g, In g before → is_file w g = true → unlink w g = Py.Ok tt) →
  is_file w f = true →
  unlink w f = Py.Raises e →
  clean_folder w folder
  = (map Unlink (List.filter (is_file w) before)
       ++ [Unlink f;
           Log (mkEvent "CLEANUP" "WARNING"
                  ("Failed to clean up " +:+ folder +:+ ": " +:+ Py.exn_msg e)
                  [])],
     Continue tt).
Proof.
  intros Hex Hls Hok Hf He. unfold clean_folder, walk_folder.
  rewrite Hex, Hls. cbv beta iota zeta.
  rewrite (for_each_until_failure w before f after e Hok Hf He).
  unfold try_except, log, emit. cbn [mbind M_bind fst snd].
  rewrite !app_nil_r, <- app_assoc. reflexivity.
Qed.

(** X18. When nothing raises, cleaning a folder deletes every regular file
    [rglob] lists under it, in the order listed, skips what is not a
    regular file, and logs nothing. *)
Theorem clean_folder_deletes_the_files w folder files :
  folder_exists w folder = true →
  rglob w folder = (files, None) →
  (∀ g, In g files → is_file w g = true → unlink w g = Py.Ok tt) →
  clean_folder w folder
  = (map Unlink (List.filter (is_file w) files), Continue tt).
Proof.
  intros Hex Hls Hok. unfold clean_folder, walk_folder.
  rewrite Hex, Hls. cbv beta iota zeta.
  rewrite (for_each_all_ok w files Hok).
  unfold try_except. cbn [mbind M_bind mret M_ret fst snd].
  rewrite !app_nil_r. reflexivity.
Qed.

(** A folder that does not exist is left alone. *)
Lemma missing_folder_is_skipped w folder :
  folder_exists w folder = false → clean_folder w folder = ([], Continue tt).
Proof.
  intros H. unfold clean_folder, walk_folder. rewrite H. reflexivity.
Qed.

(** ** These properties at concrete inputs *)

Lemma empty_language_means_auto_detection_witness :
  trace (transcribe More.blank_corrector "talk.wav" (Some "id"))
  = [WhisperTranscribe "talk.wav" (Some "id")].
Proof.
  apply (proj2 (empty_language_means_auto_detection
                  More.blank_corrector "talk.wav")).
  discriminate.
Defined.

Lemma correction_is_the_stripped_answer_witness :
  let tr := mkTranscriber Sample.whisper_ok (Some Sample.gemini_ok) in
  outcome (language_rules tr "hello wrld" "en") = Continue "hello world".
Proof.
  apply (correction_is_the_stripped_answer
           (mkTranscriber Sample.whisper_ok (Some Sample.gemini_ok))
           "hello wrld" "en" Sample.gemini_ok
           (mkResponse (Py.Ok " hello world ")) " hello world "
           eq_refl eq_refl eq_refl).
Defined.

Lemma empty_correction_is_not_an_error_witness :
  outcome (transcribe_stage default_options More.blank_corrector
             (Some "talk.wav"))
  = Continue ("", "en").
Proof.
  apply (empty_correction_is_not_an_error default_options
           More.blank_corrector "talk.wav"
           (mkWhisperResult "hello wrld" "en") More.gemini_blank
           (mkResponse (Py.Ok "   ")) "   "
           eq_refl eq_refl eq_refl eq_refl eq_refl eq_refl).
Defined.

Lemma unsupported_type_is_rejected_witness :
  outcome (run_pipeline Sample.good "notes.TXT" default_options)
  = Return (error_dict "Unsupported file type: .txt").
Proof.
  apply (unsupported_type_is_rejected Sample.good "notes.TXT" default_options
           eq_refl eq_refl).
Defined.

Lemma returned_errors_are_the_five_witness :
  known_error "clip.mov" (error_dict "Video conversion failed").
Proof.
  apply (returned_errors_are_the_five Sample.no_codec "clip.mov"
           default_options (error_dict "Video conversion failed") eq_refl).
  apply error_dict_shape.
Defined.

Lemma success_dict_is_consistent_witness :
  ∃ su transcript lang,
    new_Summarizer Sample.good = Py.Ok su
    ∧ result_of (Sample.summarizer_of 3) default_options "hello world" "en"
      = result_of su default_options transcript lang.
Proof.
  destruct (success_dict_is_consistent Sample.good "talk.mp4" default_options
              (result_of (Sample.summarizer_of 3) default_options
                         "hello world" "en"))
    as (su & transcript & lang & Hsu & Hd & _).
  - vm_compute. reflexivity.
  - apply result_of_shape.
  - exists su, transcript, lang. split; assumption.
Defined.


Lemma save_goes_with_success_witness :
  saves (trace (run_pipeline Sample.good "talk.mp4" default_options)) = 1
  ∧ saves (trace (run_pipeline Sample.empty_disk "talk.mp4" default_options))
    = 0.
Proof.
  split.
  - apply (proj1 (save_goes_with_success Sample.good "talk.mp4"
                    default_options)
             (result_of (Sample.summarizer_of 3) default_options
                        "hello world" "en")).
    + vm_compute. reflexivity.
    + apply result_of_shape.
  - apply (proj1 (proj2 (save_goes_with_success Sample.empty_disk "talk.mp4"
                           default_options))
             (error_dict "File not found: talk.mp4")).
    + reflexivity.
    + apply error_dict_shape.
Defined.

Lemma converters_work_on_the_input_witness :
  "talk.mp4" = "talk.mp4"
  ∧ "data/audio/talk.wav"
    = Path.join "data/audio" (Path.stem "talk.mp4" +:+ ".wav")
  ∧ In (Py.lower (Path.suffix "talk.mp4")) video_types.
Proof.
  apply (proj1 (converters_work_on_the_input Sample.good "talk.mp4"
                  default_options)
           "talk.mp4" "data/audio/talk.wav").
  vm_compute. repeat first [left; reflexivity | right].
Defined.

Lemma wav_is_used_directly_witness :
  forallb no_conversion
    (trace (run_pipeline Sample.good "memo.WAV" default_options)) = true.
Proof.
  apply (wav_is_used_directly Sample.good "memo.WAV" default_options);
    reflexivity.
Defined.

Lemma speech_model_gets_a_known_file_witness :
  None = language_given (language default_options)
  ∧ ("data/audio/talk.wav" = "talk.mp4"
     ∨ "data/audio/talk.wav"
       = Path.join "data/audio" (Path.stem "talk.mp4" +:+ ".wav")
     ∨ "data/audio/talk.wav"
       = Path.join "data/audio" (Path.stem "talk.mp4" +:+ "_standardized.wav")
     ∨ ∃ ap, enhance_audio Sample.good ap
               (aggressive_denoise default_options)
             = Some "data/audio/talk.wav").
Proof.
  apply (speech_model_gets_a_known_file Sample.good "talk.mp4"
           default_options).
  vm_compute. repeat first [left; reflexivity | right].
Defined.


Lemma model_init_failure_is_fatal_witness :
  outcome (run_pipeline Sample.no_codec_no_model "talk.mp3" default_options)
  = Return (error_dict "Model initialization failed: out of memory").
Proof.
  apply (model_init_failure_is_fatal Sample.no_codec_no_model "talk.mp3"
           default_options ".mp3" (Some "talk.mp3")
           (Py.mkExn "RuntimeError" "out of memory") eq_refl eq_refl).
  left. reflexivity.
Defined.

Lemma only_transient_files_are_deleted_witness :
  is_file Sample.good "data/audio/talk.wav" = true
  ∧ ∃ folder,
      In folder temp_folders
      ∧ folder_exists Sample.good folder = true
      ∧ In "data/audio/talk.wav" (rglob Sample.good folder).1.
Proof.
  apply (only_transient_files_are_deleted Sample.good "talk.mp4"
           default_options).
  vm_compute. repeat first [left; reflexivity | right].
Defined.

Lemma first_failed_unlink_ends_the_folder_witness :
  clean_folder More.sticky "data/audio"
  = ([Unlink "data/audio/a.wav"; Unlink "data/audio/b.wav";
      Unlink "data/audio/locked.wav";
      Log (mkEvent "CLEANUP" "WARNING"
             "Failed to clean up data/audio: file in use" [])],
     Continue tt).
Proof.
  apply (first_failed_unlink_ends_the_folder More.sticky "data/audio"
           ["data/audio/a.wav"; "data/audio/enhanced"; "data/audio/b.wav"]
           "data/audio/locked.wav" ["data/audio/c.wav"] None
           (Py.mkExn "PermissionError" "file in use") eq_refl eq_refl).
  - intros g Hg _. cbn in Hg.
    destruct Hg as [<-|[<-|[<-|[]]]]; reflexivity.
  - reflexivity.
  - reflexivity.
Defined.

Lemma clean_folder_deletes_the_files_witness :
  clean_folder More.tidy "data/audio"
  = ([Unlink "data/audio/a.wav"; Unlink "data/audio/b.wav"], Continue tt).
Proof.
  apply (clean_folder_deletes_the_files More.tidy "data/audio"
           ["data/audio/a.wav"; "data/audio/enhanced"; "data/audio/b.wav"]
           eq_refl eq_refl).
  intros g _ _. reflexivity.
Defined.
